(** * Copilot code analyzer: detection/scoring core

    A shallow embedding of the scoring pipeline of
    [src/analyzer/balanced_detector.py], [src/analyzer/realistic_detector.py],
    [src/analyzer/conservative_detector.py] and of the aggregation of
    [src/analyzer/metrics_calculator.py].

    Conventions of the embedding:
    - a Python [float] is an exact rational ([Q]); comparisons and arithmetic
      are those of the rationals, equality of results is [Qeq] ([==]);
    - a Python [int] is a [Z] (or a [nat] where it is a length or a count);
    - [int(x)] is truncation toward zero, [round] is round-half-to-even;
    - a Python [str] is a [string] whose characters are the code points
      0..255;
    - code that can raise returns in the [res] monad. *)

From Stdlib Require Import ZArith QArith Qminmax Qround Qabs.
From Stdlib Require Import List String Ascii Bool Lia Lqa Arith.
From Stdlib Require Import Permutation Sorted.
Import ListNotations.

Local Open Scope Q_scope.

(** ** Python numerics *)

Module Py.

  (** [int(x)] on a float: truncation toward zero. *)
Definition int (x : Q) : Z := Z.quot (Qnum x) (Zpos (Qden x)).

  (** [round(x)]: nearest integer, ties to the even one. *)
Definition round (x : Q) : Z :=
    let f := Qfloor x in
    let d := x - inject_Z f in
    match Qcompare d (1 # 2) with
    | Lt => f
    | Gt => (f + 1)%Z
    | Eq => if Z.even f then f else (f + 1)%Z
    end.

  (** [round(x, 2)]: nearest multiple of 1/100, ties to even. *)
Definition round2 (x : Q) : Q := inject_Z (round (x * 100)) / 100.

  (** [round(x, 3)]. *)
Definition round3 (x : Q) : Q := inject_Z (round (x * 1000)) / 1000.

  (** Exceptions the modelled code can raise. *)
Inductive exn : Type :=
  | ZeroDivisionError
  | StatisticsError.

  (** Result of a computation that may raise. *)
Inductive res (A : Type) : Type :=
  | Ok (a : A)
  | Raise (e : exn).
Arguments Ok {A} a.
Arguments Raise {A} e.

Definition bind {A B : Type} (m : res A) (k : A -> res B) : res B :=
    match m with
    | Ok a => k a
    | Raise e => Raise e
    end.

  (** [x / y] on numbers: raises on a zero divisor. *)
Definition div (x y : Q) : res Q :=
    if Qeq_bool y 0 then Raise ZeroDivisionError else Ok (x / y).

End Py.

Notation "x <- m ;; k" := (Py.bind m (fun x => k))
  (at level 61, m at next level, right associativity).

(** Strict comparisons of floats as booleans. *)
Definition Qltb (x y : Q) : bool := negb (Qle_bool y x).
Definition Qgtb (x y : Q) : bool := negb (Qle_bool x y).

(** ** Risk labels *)

Inductive risk : Type := MINIMAL | LOW | MEDIUM | HIGH | VERY_HIGH.

Definition risk_rank (r : risk) : nat :=
  match r with
  | MINIMAL => 0 | LOW => 1 | MEDIUM => 2 | HIGH => 3 | VERY_HIGH => 4
  end.

(** ** Python strings *)

Local Open Scope string_scope.

Module Str.

Definition code (c : ascii) : nat := nat_of_ascii c.

Definition between (lo hi n : nat) : bool := (lo <=? n)%nat && (n <=? hi)%nat.

  (** [c.isspace()] on the code points 0..255. *)
Definition isspace (c : ascii) : bool :=
    let n := code c in
    between 9 13 n || between 28 32 n || (n =? 133)%nat || (n =? 160)%nat.

  (** [c.isupper()] and [c.islower()] on one character. *)
Definition isupper (c : ascii) : bool :=
    let n := code c in
    between 65 90 n || between 192 214 n || between 216 222 n.

Definition islower (c : ascii) : bool :=
    let n := code c in
    between 97 122 n || (n =? 170)%nat || (n =? 181)%nat || (n =? 186)%nat
    || between 223 246 n || between 248 255 n.

  (** [c.lower()] on one character. *)
Definition lower (c : ascii) : ascii :=
    if isupper c then ascii_of_nat (code c + 32) else c.

  (** The word characters of [\w]: [c.isalnum() or c == '_']. *)
Definition isword (c : ascii) : bool :=
    let n := code c in
    between 48 57 n || between 65 90 n || (n =? 95)%nat || between 97 122 n
    || (n =? 170)%nat || (n =? 178)%nat || (n =? 179)%nat || (n =? 181)%nat
    || (n =? 185)%nat || (n =? 186)%nat || between 188 190 n
    || between 192 214 n || between 216 246 n || between 248 255 n.

Definition isdigit (c : ascii) : bool := between 48 57 (code c).

  (** [s.lstrip()]. *)
Fixpoint lstrip (s : string) : string :=
    match s with
    | EmptyString => EmptyString
    | String c s' => if isspace c then lstrip s' else s
    end.

  (** [s.rstrip()]. *)
Fixpoint rstrip (s : string) : string :=
    match s with
    | EmptyString => EmptyString
    | String c s' =>
        match rstrip s' with
        | EmptyString => if isspace c then EmptyString else String c EmptyString
        | r => String c r
        end
    end.

  (** [s.strip()]. *)
Definition strip (s : string) : string := rstrip (lstrip s).

  (** Truth value of a string: non-empty. *)
Definition truthy (s : string) : bool :=
    match s with EmptyString => false | _ => true end.

  (** [s.split('\n')]. *)
Fixpoint split_nl (s : string) : list string :=
    match s with
    | EmptyString => [EmptyString]
    | String c s' =>
        if (code c =? 10)%nat then EmptyString :: split_nl s'
        else match split_nl s' with
             | [] => [String c EmptyString]
             | l :: ls => String c l :: ls
             end
    end.

  (** [s.startswith('#')]. *)
Definition startswith_hash (s : string) : bool :=
    match s with
    | String c _ => (code c =? 35)%nat
    | EmptyString => false
    end.

  (** [s.islower()]: no upper-case character and at least one lower-case one. *)
Fixpoint has (p : ascii -> bool) (s : string) : bool :=
    match s with
    | EmptyString => false
    | String c s' => p c || has p s'
    end.

Definition str_islower (s : string) : bool :=
    negb (has isupper s) && has islower s.

  (** [s != s.lower()]: some character changes under [lower]. *)
Definition differs_from_lower (s : string) : bool := has isupper s.

  (** ['_' in s]. *)
Definition has_underscore (s : string) : bool :=
    has (fun c => (code c =? 95)%nat) s.

End Str.

(** ** Regular expressions

    The part of Python's [re] the detectors use: a backtracking matcher
    with the priorities of [re] (alternatives left to right, greedy and lazy
    repetition), [search] and the number of matches [findall] returns. *)

Module Re.

  (** Items of a character class. *)
Inductive item : Type :=
  | IChar (c : ascii)
  | IRange (lo hi : ascii)
  | ISpace           (* \s *)
  | IWord            (* \w *)
  | INotSpace        (* \S *)
  | IDigit.          (* \d *)

Inductive re : Type :=
  | Eps
  | Chr (c : ascii)
  | Dot
  | Cls (negated : bool) (items : list item)
  | Seq (r1 r2 : re)
  | Alt (r1 r2 : re)
  | Grp (r : re)                                 (* the capturing group *)
  | Star (greedy : bool) (r : re)
  | Rep (lo hi : nat) (greedy : bool) (r : re)   (* {lo,hi} *)
  | Bol              (* ^ *)
  | Eol              (* $ *)
  | WordB.           (* \b *)

Record flags : Type := Flags {
    IGNORECASE : bool;
    MULTILINE : bool;
    DOTALL : bool
  }.

Definition upper (c : ascii) : ascii :=
    if Str.islower c && Str.between 97 122 (Str.code c)
    then ascii_of_nat (Str.code c - 32) else c.

Definition item_has (it : item) (c : ascii) : bool :=
    match it with
    | IChar d => Ascii.eqb c d
    | IRange lo hi => Str.between (Str.code lo) (Str.code hi) (Str.code c)
    | ISpace => Str.isspace c
    | INotSpace => negb (Str.isspace c)
    | IWord => Str.isword c
    | IDigit => Str.isdigit c
    end.

Definition items_have (fl : flags) (its : list item) (c : ascii) : bool :=
    existsb (fun it =>
      item_has it c
      || (IGNORECASE fl && (item_has it (Str.lower c) || item_has it (upper c))))
      its.

Definition chr_eq (fl : flags) (p c : ascii) : bool :=
    if IGNORECASE fl then Ascii.eqb (Str.lower p) (Str.lower c)
    else Ascii.eqb p c.

Definition is_nl (c : ascii) : bool := (Str.code c =? 10)%nat.

Definition wordp (o : option ascii) : bool :=
    match o with Some c => Str.isword c | None => false end.

  (** A matcher state: the character before the position, the text from
      the position on, and the text captured by the group so far. *)
Record st : Type := St {
    prev : option ascii;
    rest : list ascii;
    cap : option (list ascii)
  }.

Definition kont : Type := st -> option st.

Definition shorter (s' s : list ascii) : bool :=
    (List.length s' <? List.length s)%nat.

Definition orelse (a b : option st) : option st :=
    match a with Some _ => a | None => b end.

  (** The text between two positions of the same string. *)
Definition consumed (from to : list ascii) : list ascii :=
    firstn (List.length from - List.length to) from.

  (** Consume one character. *)
Definition step (c : ascii) (s' : list ascii) (x : st) : st :=
    St (Some c) s' (cap x).

Section Matcher.
Variable fl : flags.

    (** [m r x k]: match [r] at the state [x], then continue with [k]; the
        first success in priority order. *)
Fixpoint m (r : re) {struct r} : st -> kont -> option st :=
      match r with
      | Eps => fun x k => k x
      | Chr p => fun x k =>
          match rest x with
          | c :: s' => if chr_eq fl p c then k (step c s' x) else None
          | [] => None
          end
      | Dot => fun x k =>
          match rest x with
          | c :: s' =>
              if DOTALL fl || negb (is_nl c) then k (step c s' x) else None
          | [] => None
          end
      | Cls neg its => fun x k =>
          match rest x with
          | c :: s' =>
              if xorb neg (items_have fl its c) then k (step c s' x) else None
          | [] => None
          end
      | Seq r1 r2 => fun x k => m r1 x (fun y => m r2 y k)
      | Alt r1 r2 => fun x k => orelse (m r1 x k) (m r2 x k)
      | Grp r' => fun x k =>
          m r' x (fun y =>
            k (St (prev y) (rest y) (Some (consumed (rest x) (rest y)))))
      | Star g r' => fun x k =>
          (fix star (n : nat) (x : st) : option st :=
             match n with
             | O => k x
             | S n' =>
                 let again :=
                   m r' x (fun y =>
                     if shorter (rest y) (rest x) then star n' y else None) in
                 if g then orelse again (k x) else orelse (k x) again
             end) (S (List.length (rest x))) x
      | Rep lo hi g r' => fun x k =>
          (fix req (n : nat) (x : st) : option st :=
             match n with
             | S n' => m r' x (fun y => req n' y)
             | O =>
                 (fix opt (j : nat) (x : st) : option st :=
                    match j with
                    | O => k x
                    | S j' =>
                        let again := m r' x (fun y => opt j' y) in
                        if g then orelse again (k x) else orelse (k x) again
                    end) (hi - lo)%nat x
             end) lo x
      | Bol => fun x k =>
          match prev x with
          | None => k x
          | Some c => if MULTILINE fl && is_nl c then k x else None
          end
      | Eol => fun x k =>
          match rest x with
          | [] => k x
          | c :: s' =>
              if is_nl c
                 && (MULTILINE fl || match s' with [] => true | _ => false end)
              then k x else None
          end
      | WordB => fun x k =>
          if xorb (wordp (prev x)) (wordp (hd_error (rest x))) then k x
          else None
      end.

    (** A match of [r] starting exactly at [(p, s)]; with [nonempty] only a
        match that consumes a character. *)
Definition match_at (r : re) (nonempty : bool) (p : option ascii)
      (s : list ascii) : option st :=
      m r (St p s None) (fun y =>
        if nonempty && negb (shorter (rest y) s) then None else Some y).

    (** [pattern.search(text)] as a truth value. *)
Fixpoint search_from (r : re) (p : option ascii) (s : list ascii) : bool :=
      match match_at r false p s with
      | Some _ => true
      | None =>
          match s with
          | [] => false
          | c :: s' => search_from r (Some c) s'
          end
      end.

    (** What [findall] reports for one match: the group when the expression
        has one, the whole match otherwise. *)
Definition reported (s : list ascii) (y : st) : string :=
      string_of_list_ascii
        (match cap y with
         | Some g => g
         | None => consumed s (rest y)
         end).

    (** [pattern.findall(text)]: the matches are found left to right and do
        not overlap; after an empty match the next one at the same place
        must consume a character. *)
Fixpoint findall_from (fuel : nat) (r : re) (must_advance : bool)
      (p : option ascii) (s : list ascii) : list string :=
      match fuel with
      | O => []
      | S fuel' =>
          match match_at r must_advance p s with
          | Some y =>
              reported s y
              :: findall_from fuel' r (negb (shorter (rest y) s)) (prev y) (rest y)
          | None =>
              match s with
              | [] => []
              | c :: s' => findall_from fuel' r false (Some c) s'
              end
          end
      end.

End Matcher.

  (** A compiled pattern: the expression and its flags. *)
Record pattern : Type := Compile { expr : re; flag : flags }.

Definition search (p : pattern) (text : string) : bool :=
    search_from (flag p) (expr p) None (list_ascii_of_string text).

Definition findall (p : pattern) (text : string) : list string :=
    let s := list_ascii_of_string text in
    findall_from (flag p) (2 * List.length s + 2) (expr p) false None s.

Definition findall_len (p : pattern) (text : string) : nat :=
    List.length (findall p text).

  (** Notation helpers for writing expressions. *)
Fixpoint lit (s : string) : re :=
    match s with
    | EmptyString => Eps
    | String c EmptyString => Chr c
    | String c s' => Seq (Chr c) (lit s')
    end.

Fixpoint seq (rs : list re) : re :=
    match rs with
    | [] => Eps
    | [r] => r
    | r :: rs' => Seq r (seq rs')
    end.

Fixpoint alt (rs : list re) : re :=
    match rs with
    | [] => Eps
    | [r] => r
    | r :: rs' => Alt r (alt rs')
    end.

Definition star (r : re) : re := Star true r.
Definition lazy_star (r : re) : re := Star false r.
Definition plus (r : re) : re := Seq r (Star true r).
Definition lazy_plus (r : re) : re := Seq r (Star false r).
Definition opt (r : re) : re := Rep 0 1 true r.

Definition s_ : re := Cls false [ISpace].          (* \s *)
Definition w_ : re := Cls false [IWord].           (* \w *)
Definition d_ : re := Cls false [IDigit].          (* \d *)
Definition any_ : re := Cls false [ISpace; INotSpace].   (* [\s\S] *)

Definition first (s : string) : ascii :=
    match s with String c _ => c | EmptyString => zero end.
Definition ic (s : string) : item := IChar (first s).
Definition ir (lo hi : string) : item := IRange (first lo) (first hi).
Definition none_of (its : list item) : re := Cls true its.
Definition one_of (its : list item) : re := Cls false its.

Definition no_flags : flags := Flags false false false.
Definition I_ : flags := Flags true false false.
Definition M_ : flags := Flags false true false.
Definition MI : flags := Flags true true false.
Definition MS : flags := Flags false true true.

End Re.

(** ** Analysis results *)

(** One line of explanation: the text and, where the source formats the
    confidence into it, the number formatted. *)
Definition message : Type := (string * option Q)%type.

(** The dictionary [analyze_content] returns. *)
Record result : Type := Result {
  confidence_score : Q;
  estimated_lines : Z;
  total_analyzed_lines : Z;
  risk_level : risk;
  language : string;
  indicators : list (string * bool);
  detailed_scores : list (string * Q);
  analysis_explanation : list message
}.

Definition lower_string (s : string) : string :=
  string_of_list_ascii (map Str.lower (list_ascii_of_string s)).

(** [table.get(key, default)] on a dictionary with string keys. *)
Fixpoint dict_get {A : Type} (table : list (string * A)) (key : string)
  (default : A) : A :=
  match table with
  | [] => default
  | (k, v) :: t => if String.eqb k key then v else dict_get t key default
  end.

(** [sum(1 for x in xs if p x)]. *)
Definition count_if {A : Type} (p : A -> bool) (xs : list A) : nat :=
  List.length (filter p xs).

(** The number of patterns of a list that [search] finds in the text. *)
Definition count_search (ps : list Re.pattern) (content : string) : nat :=
  count_if (fun p => Re.search p content) ps.

(** The total number of matches [findall] returns over a list of patterns. *)
Definition count_findall (ps : list Re.pattern) (content : string) : nat :=
  fold_left (fun acc p => (acc + Re.findall_len p content)%nat) ps 0%nat.

Definition Qnat (n : nat) : Q := inject_Z (Z.of_nat n).

(** Pieces of expressions the patterns share. *)
Module P.
Import Re.
Definition dq : string := String (ascii_of_nat 34) "".
Definition sq : string := String (ascii_of_nat 39) "".
Definition nl : re := Chr (ascii_of_nat 10).
Definition sp : re := star s_.          (* \s* *)
Definition sp1 : re := plus s_.         (* \s+ *)
Definition ws : re := plus w_.          (* \w+ *)
Definition w0 : re := star w_.          (* \w* *)
Definition q3 : re := lit (dq ++ dq ++ dq).
Definition anyl : re := lazy_star any_. (* [\s\S]*? *)
Definition dots : re := star Dot.       (* .* *)
(** A quote character, single or double, and any other character. *)
Definition quote : re := one_of [ic sq; ic dq].
Definition noquote : re := none_of [ic sq; ic dq].
Definition args : re := star (none_of [ic ")"]).            (* [^)]* *)
Definition lower_us : re := one_of [ir "a" "z"; ic "_"].    (* [a-z_] *)
End P.

(** ** The [statistics] module *)

Module Statistics.

Definition Qsum (xs : list Q) : Q := fold_right Qplus 0 xs.

Definition mean_of (xs : list Q) : Q := Qsum xs / Qnat (List.length xs).

(** [statistics.variance(data)]: the sample variance; it needs two data
    points. *)
Definition variance (data : list Q) : Py.res Q :=
  if (List.length data <? 2)%nat then Py.Raise Py.StatisticsError
  else
    let mu := mean_of data in
    let ss := Qsum (map (fun x => (x - mu) * (x - mu)) data) in
    Py.Ok (ss / Qnat (List.length data - 1)).

End Statistics.

(** ** Balanced detector ([src/analyzer/balanced_detector.py]) *)

Module Balanced.
Import Re P.

(** [self.weights]. *)
Record weights_t : Type := Weights {
  strong_indicators : Q;
  moderate_indicators : Q;
  weak_indicators : Q;
  consistency_bonus : Q;
  human_penalty : Q
}.

(** The state of a detector instance. *)
Record detector : Type := Detector {
  compiled_strong : list (string * list pattern);
  compiled_moderate : list (string * list pattern);
  compiled_weak : list pattern;
  compiled_human : list pattern;
  weights : weights_t
}.

Definition explicit_markers : list re :=
  [ seq [lit "#"; sp; lit "AI-generated"];
    seq [lit "#"; sp; lit "Generated"; sp1; lit "by"; sp1;
         alt [lit "AI"; lit "Copilot"; seq [lit "GitHub"; sp1; lit "Copilot"]]];
    seq [lit "@generated"; sp; Eol];
    seq [lit "#"; sp; lit "@generated"; sp; Eol];
    seq [lit "This"; sp1; lit "code"; sp1; lit "was"; sp1;
         alt [lit "generated"; lit "created"]; sp1; lit "by"; sp1;
         alt [lit "AI"; lit "Copilot"; lit "assistant"]];
    seq [lit "Auto-generated"; sp1; lit "by"];
    seq [lit "Code"; sp1; lit "Generated"; sp1; lit "by"; sp1; lit "Copilot"];
    seq [lit "Copilot"; sp1; alt [lit "Detection"; lit "Analysis"; lit "Code"]];
    seq [lit "machine"; sp1; lit "learning"; sp1; lit "techniques"];
    seq [lit "detection"; sp1;
         alt [seq [lit "algorithm"; opt (lit "s")]; lit "engine"]] ].

Definition ai_documentation_style : list re :=
  [ seq [q3; anyl; lit "Args:"; anyl; lit "Returns:"; anyl; q3];
    seq [q3; anyl; lit "Parameters:"; anyl; lit "Returns:"; anyl; q3];
    seq [q3; anyl; lit "Example:"; anyl; lit ">>>"; anyl; q3];
    seq [lit "def"; sp1; ws; lit "("; args; lit "):"; sp; nl; sp;
         q3; star (none_of [ic dq]); q3];
    seq [lit "class"; sp1; ws; star (none_of [ic ":"]); lit ":"; sp; nl; sp;
         q3; star (none_of [ic dq]); q3];
    seq [q3; anyl;
         alt [lit "Initialize"; lit "Analyze"; lit "Calculate"; lit "Process"];
         anyl; q3] ].

Definition ai_code_patterns : list re :=
  [ seq [lit "def"; sp1; ws; lit "("; args; lit ")"; sp; lit "->"; sp;
         alt [lit "Optional["; lit "Union["; lit "List["; lit "Dict["]];
    seq [lit "try:"; sp; nl; anyl; nl; lit "except"; sp1; w0; lit "Exception";
         sp1; lit "as"; sp1; ws; lit ":"; sp; nl; sp; lit "logger."];
    seq [lit "if"; sp1; lit "__name__"; sp; lit "=="; sp; quote;
         lit "__main__"; quote; lit ":"; sp; nl; sp; lit "main()"];
    seq [lit "from"; sp1; lit "typing"; sp1; lit "import"; sp1; dots;
         lit "Dict"; dots; lit "Any"];
    seq [lit "def"; sp1; lit "_"; plus lower_us; lit "("; args; lit ")"; sp;
         lit "->"; sp; alt [lit "float"; lit "int"; lit "str"; lit "bool"];
         lit ":"];
    seq [lit "self."; ws; sp; lit "="; sp; ws; sp; lit "or"; sp; lit "{}"] ].

Definition strong_ai_patterns : list (string * list re) :=
  [ ("explicit_markers", explicit_markers);
    ("ai_documentation_style", ai_documentation_style);
    ("ai_code_patterns", ai_code_patterns) ].

Definition named (prefix : string) : re :=
  seq [WordB; lit prefix; plus lower_us; WordB].

Definition moderate_ai_patterns : list (string * list re) :=
  [ ("consistent_naming",
     [ named "get_"; named "set_"; named "calculate_"; named "process_";
       named "validate_" ]);
    ("structural_consistency",
     [ seq [lit "from"; sp1; lit "typing"; sp1; lit "import"; sp1; dots;
            lit "Optional"; dots; lit "Union"];
       seq [lit "@"; ws; sp; nl; sp; lit "def"; sp1; ws];
       seq [lit "class"; sp1; ws; lit "("; one_of [ir "A" "Z"]; w0; lit "):";
            sp; nl; sp; q3] ]);
    ("modern_patterns",
     [ seq [lit "f"; quote; star noquote; lit "{"; plus (none_of [ic "}"]);
            lit "}"; star noquote; quote];
       seq [lit "with"; sp1; lit "open("; args; lit ")"; sp1; lit "as"; sp1;
            ws; lit ":"];
       seq [lit "lambda"; sp1; ws; lit ":"; sp1; ws; lit "."] ]) ].

Definition weak_ai_patterns : list re :=
  [ seq [lit "#"; sp; lit "TODO:"];
    seq [lit "#"; sp; lit "FIXME:"];
    seq [lit "#"; sp; lit "NOTE:"] ].

Definition human_patterns : list re :=
  [ seq [lit "#"; sp;
         alt [lit "hack"; seq [lit "quick"; sp1; lit "fix"]; lit "temporary"]];
    seq [WordB; alt [lit "wtf"; lit "damn"; lit "shit"; lit "crap"]; WordB];
    seq [lit "#"; sp; one_of [ir "a" "z"]];
    seq [Rep 1 2 true w_; sp; lit "="; sp; Rep 1 2 true w_];
    seq [lit "def"; sp1; Rep 1 3 true (one_of [ir "a" "z"]); lit "("] ].

Definition compile_all (fl : flags) (rs : list re) : list pattern :=
  map (fun r => Compile r fl) rs.

Definition compile_dict (fl : flags) (d : list (string * list re))
  : list (string * list pattern) :=
  map (fun kv => (fst kv, compile_all fl (snd kv))) d.

(** [_initialize_weights]. *)
Definition _initialize_weights : weights_t :=
  Weights 0.5 0.3 0.15 0.05 (-0.15).

(** [__init__]: the patterns compiled and the weights set. *)
Definition init : detector :=
  Detector (compile_dict MI strong_ai_patterns)
           (compile_dict M_ moderate_ai_patterns)
           (compile_all MI weak_ai_patterns)
           (compile_all MI human_patterns)
           _initialize_weights.

(** [_analyze_strong_indicators]. *)
Definition _analyze_strong_indicators (self : detector) (content : string) : Q :=
  let '(total_matches, max_possible) :=
    fold_left
      (fun acc category =>
         let category_matches := Z.of_nat (count_search (snd category) content) in
         (fst acc + Z.min category_matches 2, snd acc + 2)%Z)
      (compiled_strong self) (0, 0)%Z in
  if (0 <? max_possible)%Z
  then inject_Z total_matches / inject_Z max_possible
  else 0.

(** The number of lines [content.split('\n')] has. *)
Definition line_count (content : string) : nat :=
  List.length (Str.split_nl content).

(** The loop of [_analyze_moderate_indicators]. *)
Fixpoint moderate_loop (categories : list (string * list pattern))
  (content : string) (total_matches : Q) (max_possible : Z) : Py.res (Q * Z) :=
  match categories with
  | [] => Py.Ok (total_matches, max_possible)
  | category :: rest =>
      let category_matches := count_findall (snd category) content in
      q <- Py.div (Qnat category_matches) (Qnat (line_count content) / 10) ;;
      let normalized_matches := Qmin q 1 in
      moderate_loop rest content (total_matches + normalized_matches)
                    (max_possible + 1)%Z
  end.

(** [_analyze_moderate_indicators]. *)
Definition _analyze_moderate_indicators (self : detector) (content : string)
  : Py.res Q :=
  r <- moderate_loop (compiled_moderate self) content 0 0%Z ;;
  let '(total_matches, max_possible) := r in
  Py.Ok (if (0 <? max_possible)%Z then total_matches / inject_Z max_possible
         else 0).

(** [_analyze_weak_indicators]. *)
Definition _analyze_weak_indicators (self : detector) (content : string)
  : Py.res Q :=
  let matches := count_findall (compiled_weak self) content in
  let lines := line_count content in
  q <- Py.div (Qnat matches) (Qnat lines / 20) ;;
  Py.Ok (Qmin q 1).

(** [_analyze_human_patterns]. *)
Definition _analyze_human_patterns (self : detector) (content : string)
  : Py.res Q :=
  let matches := count_findall (compiled_human self) content in
  let lines := line_count content in
  q <- Py.div (Qnat matches) (Qnat lines / 30) ;;
  Py.Ok (Qmin q 1).

(** [sorted(set(xs))] on integers: insertion into a sorted list without
    repetition. *)
Fixpoint insert_unique (x : nat) (l : list nat) : list nat :=
  match l with
  | [] => [x]
  | y :: l' =>
      if (x <? y)%nat then x :: l
      else if (x =? y)%nat then l
      else y :: insert_unique x l'
  end.

Definition sorted_set (xs : list nat) : list nat :=
  fold_right insert_unique [] xs.

(** [[u[i+1] - u[i] for i in range(len(u)-1)]]. *)
Fixpoint steps_of (u : list nat) : list Z :=
  match u with
  | a :: ((b :: _) as t) => (Z.of_nat b - Z.of_nat a)%Z :: steps_of t
  | _ => []
  end.

(** [len(set(xs))] on integers. *)
Definition distinct (xs : list Z) : nat := List.length (nodup Z.eq_dec xs).

(** [max(xs)] on a non-empty list of widths. *)
Definition max_of (xs : list nat) : nat := fold_right Nat.max 0%nat xs.

(** [_calculate_indentation_consistency]; the indentations are widths. *)
Definition _calculate_indentation_consistency (indentations : list nat)
  : Py.res Q :=
  if (List.length indentations <=? 1)%nat then Py.Ok 1
  else
    let unique_indents := sorted_set indentations in
    if (1 <? List.length unique_indents)%nat
       && (distinct (steps_of unique_indents) =? 1)%nat
    then Py.Ok 1
    else
      variance <-
        (if (1 <? List.length indentations)%nat
         then Statistics.variance (map Qnat indentations)
         else Py.Ok 0) ;;
      let max_indent :=
        match indentations with [] => 1%nat | _ => max_of indentations end in
      q <- Py.div variance (Qnat max_indent + 1) ;;
      Py.Ok (Qmax 0 (1 - q)).

(** [_calculate_naming_consistency]. *)
Definition _calculate_naming_consistency (names : list string) : Q :=
  match names with
  | [] => 0.5
  | _ =>
      let snake_case :=
        count_if (fun name => Str.has_underscore name && Str.str_islower name)
                 names in
      let camel_case :=
        count_if (fun name => Str.differs_from_lower name
                              && negb (Str.has_underscore name)) names in
      let total := List.length names in
      let max_convention := Nat.max snake_case camel_case in
      if (0 <? total)%nat then Qnat max_convention / Qnat total else 0.5
  end.

(** [c.strip() and c.strip()[0].isupper()] and its lower-case twin. *)
Definition starts_with (p : ascii -> bool) (comment : string) : bool :=
  match Str.strip comment with
  | EmptyString => false
  | String c _ => p c
  end.

(** [_calculate_comment_consistency]. *)
Definition _calculate_comment_consistency (comments : list string) : Q :=
  match comments with
  | [] => 0.5
  | _ =>
      let capitalized := count_if (starts_with Str.isupper) comments in
      let lowercase := count_if (starts_with Str.islower) comments in
      let total := List.length comments in
      let max_style := Nat.max capitalized lowercase in
      if (0 <? total)%nat then Qnat max_style / Qnat total else 0.5
  end.

Definition function_name_re : pattern :=
  Compile (seq [lit "def"; sp1; Grp ws; lit "("]) no_flags.

Definition variable_name_re : pattern :=
  Compile (seq [WordB;
                Grp (seq [lower_us;
                          star (one_of [ir "a" "z"; ir "0" "9"; ic "_"])]);
                sp; lit "="]) no_flags.

Definition comment_re : pattern :=
  Compile (seq [lit "#"; sp; Grp (plus Dot); Eol]) M_.

(** [len(line) - len(line.lstrip())]. *)
Definition indent_width (line : string) : nat :=
  (String.length line - String.length (Str.lstrip line))%nat.

Definition nonblank (line : string) : bool := Str.truthy (Str.strip line).

(** [_analyze_consistency]. *)
Definition _analyze_consistency (content : string) (lines : list string)
  : Py.res Q :=
  let indentations := map indent_width (filter nonblank lines) in
  indentation_consistency <- _calculate_indentation_consistency indentations ;;
  let function_names := findall function_name_re content in
  let variable_names := findall variable_name_re content in
  let naming_consistency :=
    _calculate_naming_consistency (function_names ++ variable_names) in
  let comments := findall comment_re content in
  let comment_consistency := _calculate_comment_consistency comments in
  Py.Ok ((indentation_consistency + naming_consistency + comment_consistency) / 3).

(** [_apply_realistic_thresholds], up to and excluding the noise floor. *)
Definition pre_floor (confidence : Q) (total_lines : Z) : Q :=
  let confidence :=
    if (total_lines <? 20)%Z then confidence * 0.5
    else if (total_lines <? 50)%Z then confidence * 0.7
    else confidence in
  if Qgtb confidence 0.25 && (30 <? total_lines)%Z
  then Qmin (confidence * 0.75) 0.40
  else confidence.

(** [_apply_realistic_thresholds], from the noise floor on. *)
Definition post_floor (confidence : Q) : Q :=
  let confidence := if Qltb confidence 0.05 then 0 else confidence in
  let confidence :=
    if Qgtb confidence 0.6 then 0.6 + (confidence - 0.6) * 0.5
    else confidence in
  Qmin (Qmax confidence 0) 0.75.

(** [_apply_realistic_thresholds]. *)
Definition _apply_realistic_thresholds (confidence : Q) (total_lines : Z) : Q :=
  post_floor (pre_floor confidence total_lines).

(** [_calculate_balanced_risk]. *)
Definition _calculate_balanced_risk (confidence strong_score moderate_score : Q)
  : risk :=
  if Qgtb strong_score 0.5 || Qgtb confidence 0.7 then HIGH
  else if Qgtb strong_score 0.2 || Qgtb moderate_score 0.5
          || Qgtb confidence 0.4
  then MEDIUM
  else if Qgtb moderate_score 0.2 || Qgtb confidence 0.15 then LOW
  else MINIMAL.

(** [_generate_explanation]. *)
Definition _generate_explanation (confidence strong moderate weak human : Q)
  : list message :=
  [ if Qgtb confidence 0.6
    then ("High confidence ({:.1%}) of AI assistance", Some confidence)
    else if Qgtb confidence 0.3
    then ("Moderate confidence ({:.1%}) of AI assistance", Some confidence)
    else if Qgtb confidence 0.1
    then ("Low confidence ({:.1%}) of AI assistance", Some confidence)
    else ("Appears to be primarily human-written", None) ]
  ++ (if Qgtb strong 0.3
      then [("Strong AI patterns detected (documentation style, perfect structure)", None)]
      else [])
  ++ (if Qgtb moderate 0.3
      then [("Moderate AI patterns detected (consistent naming, modern syntax)", None)]
      else [])
  ++ (if Qgtb weak 0.3
      then [("Weak AI indicators present (TODO comments, standard patterns)", None)]
      else [])
  ++ (if Qgtb human 0.3
      then [("Human coding patterns detected (informal style, shortcuts)", None)]
      else []).

Definition language_map : list (string * string) :=
  [ (".py", "python"); (".js", "javascript"); (".ts", "typescript");
    (".jsx", "javascript"); (".tsx", "typescript"); (".java", "java");
    (".cpp", "cpp"); (".c", "c"); (".cs", "csharp"); (".php", "php");
    (".rb", "ruby"); (".go", "go"); (".rs", "rust") ].

(** [_detect_language]. *)
Definition _detect_language (file_extension : string) : string :=
  dict_get language_map (lower_string file_extension) "unknown".

(** [_create_empty_analysis]. *)
Definition _create_empty_analysis : result :=
  Result 0 0 0 MINIMAL "unknown"
    [ ("strong_ai_patterns", false); ("moderate_ai_patterns", false);
      ("weak_ai_patterns", false); ("high_consistency", false);
      ("human_patterns_detected", false) ]
    [ ("strong_indicators", 0); ("moderate_indicators", 0);
      ("weak_indicators", 0); ("consistency_score", 0);
      ("human_patterns", 0); ("base_confidence", 0);
      ("human_penalty_applied", 0) ]
    [ ("Empty file - no analysis possible", None) ].

(** The weighted confidence of [analyze_content], before the thresholds. *)
Definition base_of (w : weights_t)
  (strong_score moderate_score weak_score consistency_score : Q) : Q :=
  strong_score * strong_indicators w
  + moderate_score * moderate_indicators w
  + weak_score * weak_indicators w
  + consistency_score * consistency_bonus w.

Definition penalty_of (w : weights_t) (human_score : Q) : Q :=
  if Qgtb human_score 0.85 then (human_score - 0.85) * human_penalty w else 0.

(** [analyze_content]. *)
Definition analyze_content (self : detector) (content file_extension : string)
  : Py.res result :=
  if negb (Str.truthy (Str.strip content)) then Py.Ok _create_empty_analysis
  else
    let lines := filter nonblank (Str.split_nl content) in
    let total_lines := Z.of_nat (List.length lines) in
    if (total_lines =? 0)%Z then Py.Ok _create_empty_analysis
    else
      let strong_score := _analyze_strong_indicators self content in
      moderate_score <- _analyze_moderate_indicators self content ;;
      weak_score <- _analyze_weak_indicators self content ;;
      consistency_score <- _analyze_consistency content lines ;;
      human_score <- _analyze_human_patterns self content ;;
      let base_confidence :=
        base_of (weights self) strong_score moderate_score weak_score
                consistency_score in
      let human_penalty := penalty_of (weights self) human_score in
      let final_confidence := Qmax 0 (base_confidence + human_penalty) in
      let final_confidence :=
        _apply_realistic_thresholds final_confidence total_lines in
      let risk_level :=
        _calculate_balanced_risk final_confidence strong_score moderate_score in
      let estimated_ai_lines :=
        if Qgtb final_confidence 0.05
        then Py.int (inject_Z total_lines * final_confidence)
        else 0%Z in
      Py.Ok (Result final_confidence estimated_ai_lines total_lines risk_level
               (_detect_language file_extension)
               [ ("strong_ai_patterns", Qgtb strong_score 0.3);
                 ("moderate_ai_patterns", Qgtb moderate_score 0.3);
                 ("weak_ai_patterns", Qgtb weak_score 0.3);
                 ("high_consistency", Qgtb consistency_score 0.6);
                 ("human_patterns_detected", Qgtb human_score 0.3) ]
               [ ("strong_indicators", strong_score);
                 ("moderate_indicators", moderate_score);
                 ("weak_indicators", weak_score);
                 ("consistency_score", consistency_score);
                 ("human_patterns", human_score);
                 ("base_confidence", base_confidence);
                 ("human_penalty_applied", human_penalty) ]
               (_generate_explanation final_confidence strong_score
                  moderate_score weak_score human_score)).

End Balanced.

(** ** Realistic detector ([src/analyzer/realistic_detector.py]) *)

Module Realistic.
Import Re P.

Record weights_t : Type := Weights {
  w_explicit_markers : Q;
  w_subtle_patterns : Q;
  w_length_bonus : Q;
  w_consistency_bonus : Q
}.

Record detector : Type := Detector {
  compiled_explicit : list pattern;
  compiled_subtle : list pattern;
  weights : weights_t
}.

(** A letter in either case, written as a class in the source. *)
Definition either (up low : string) : re := one_of [ic up; ic low].

Definition generated : re := seq [either "G" "g"; lit "enerated"].
Definition copilot : re := seq [either "C" "c"; lit "opilot"].

Definition explicit_markers : list re :=
  [ seq [lit "#"; dots; either "C" "c"; lit "ode "; generated; lit " by ";
         copilot];
    seq [lit "#"; dots; generated; lit " by "; copilot];
    seq [lit "#"; dots; copilot; lit " "; generated];
    seq [lit "#"; dots; either "A" "a"; either "I" "i";
         star (one_of [ic "-"; ISpace]); generated];
    seq [lit "//"; dots; copilot];
    lit "@generated" ].

Definition subtle_patterns : list re :=
  [ seq [lit "def"; sp1; ws; lit "("; dots; lit ")"; sp; lit "->"; sp;
         one_of [ir "A" "Z"]; w0; lit ":"];
    seq [lit "from"; sp1; lit "typing"; sp1; lit "import"; dots;
         lit "Optional"; dots; lit "Union"];
    seq [q3; Rep 100 100 true any_; anyl; lit "Args:"; anyl; lit "Returns:";
         anyl; q3];
    seq [lit "try:"; sp; nl; lazy_star Dot; nl; lit "except"; sp1; ws;
         lit "Exception"; sp1; lit "as"; sp1; ws; lit ":"] ].

Definition _initialize_weights : weights_t := Weights 0.8 0.1 0.05 0.05.

(** [__init__]. *)
Definition init : detector :=
  Detector (map (fun r => Compile r I_) explicit_markers)
           (map (fun r => Compile r MS) subtle_patterns)
           _initialize_weights.

(** [_analyze_explicit_markers]. *)
Definition _analyze_explicit_markers (self : detector) (content : string) : Q :=
  let marker_count := count_findall (compiled_explicit self) content in
  Qmin (Qnat marker_count * 0.3) 1.

(** [_analyze_subtle_patterns]. *)
Definition _analyze_subtle_patterns (self : detector) (content : string)
  (code_lines : nat) : Py.res Q :=
  if (code_lines <? 10)%nat then Py.Ok 0
  else
    let pattern_matches := count_findall (compiled_subtle self) content in
    q <- Py.div (Qnat pattern_matches) (Qnat code_lines / 20) ;;
    let normalized_score := Qmin q 0.5 in
    Py.Ok (normalized_score * 0.2).

(** [_apply_realistic_thresholds] without explicit markers, up to and
    excluding the noise threshold. *)
Definition pre_floor (confidence : Q) (total_lines : Z) : Q :=
  let confidence :=
    if (total_lines <? 30)%Z then confidence * 0.3
    else if (total_lines <? 100)%Z then confidence * 0.5
    else confidence in
  if Qgtb confidence 0.1 then Qmin (confidence * 0.4) 0.08 else confidence.

(** The noise threshold. *)
Definition floor_step (confidence : Q) : Q :=
  if Qltb confidence 0.02 then 0 else confidence.

(** [_apply_realistic_thresholds]. *)
Definition _apply_realistic_thresholds (confidence : Q) (total_lines : Z)
  (has_explicit : bool) : Q :=
  if has_explicit then Qmin confidence 0.95
  else floor_step (pre_floor confidence total_lines).

(** [_calculate_risk_level]. *)
Definition _calculate_risk_level (confidence : Q) (has_explicit : bool) : risk :=
  if has_explicit && Qgtb confidence 0.7 then VERY_HIGH
  else if Qgtb confidence 0.3 then HIGH
  else if Qgtb confidence 0.05 then LOW
  else MINIMAL.

(** [_generate_explanation]. *)
Definition _generate_explanation (confidence explicit subtle : Q)
  : list message :=
  [ if Qgtb explicit 0
    then ("Explicit AI markers detected ({:.1%} confidence)", Some explicit)
    else if Qgtb subtle 0
    then ("Subtle AI patterns detected ({:.1%} confidence)", Some subtle)
    else ("No clear AI indicators found", None);
    if Qgtb confidence 0.05
    then ("Overall confidence: {:.1%}", Some confidence)
    else ("Confidence below detection threshold", None) ].

Definition extension_map : list (string * string) :=
  [ (".py", "python"); (".js", "javascript"); (".ts", "typescript");
    (".java", "java"); (".cpp", "cpp"); (".c", "c"); (".go", "go");
    (".rs", "rust") ].

(** [_detect_language]. *)
Definition _detect_language (file_extension : string) : string :=
  dict_get extension_map (lower_string file_extension) "unknown".

(** [_create_empty_analysis]. *)
Definition _create_empty_analysis : result :=
  Result 0 0 0 MINIMAL "unknown"
    [ ("explicit_markers", false); ("subtle_patterns", false);
      ("file_complexity", false) ]
    [ ("explicit_markers", 0); ("subtle_patterns", 0);
      ("final_confidence", 0) ]
    [ ("Empty or invalid file", None) ].

(** A line that is neither blank nor a comment. *)
Definition is_code (line : string) : bool :=
  Str.truthy (Str.strip line) && negb (Str.startswith_hash (Str.strip line)).

(** [analyze_content]. *)
Definition analyze_content (self : detector) (content file_extension : string)
  : Py.res result :=
  if negb (Str.truthy (Str.strip content)) then Py.Ok _create_empty_analysis
  else
    let lines := Str.split_nl content in
    let total_lines := Z.of_nat (List.length lines) in
    let code_lines := List.length (filter is_code lines) in
    let explicit_score := _analyze_explicit_markers self content in
    subtle_score <-
      (if Qeq_bool explicit_score 0
       then _analyze_subtle_patterns self content code_lines
       else Py.Ok 0) ;;
    let confidence :=
      explicit_score * w_explicit_markers (weights self)
      + subtle_score * w_subtle_patterns (weights self) in
    let confidence :=
      _apply_realistic_thresholds confidence total_lines
                                  (Qgtb explicit_score 0) in
    let risk_level := _calculate_risk_level confidence (Qgtb explicit_score 0) in
    let estimated_lines :=
      if Qgtb confidence 0.02
      then Py.int (inject_Z total_lines * confidence)
      else 0%Z in
    Py.Ok (Result confidence estimated_lines total_lines risk_level
             (_detect_language file_extension)
             [ ("explicit_markers", Qgtb explicit_score 0);
               ("subtle_patterns", Qgtb subtle_score 0.1);
               ("file_complexity", (50 <? code_lines)%nat) ]
             [ ("explicit_markers", explicit_score);
               ("subtle_patterns", subtle_score);
               ("final_confidence", confidence) ]
             (_generate_explanation confidence explicit_score subtle_score)).

End Realistic.

(** ** Conservative detector ([src/analyzer/conservative_detector.py]) *)

Module Conservative.
Import Re P.

Record detector : Type := Detector {
  compiled_explicit : list pattern;
  compiled_signatures : list pattern
}.

Definition digits (n : nat) : re := Rep n n true d_.

Definition explicit_ai_markers : list re :=
  [ seq [lit "@generated"; sp; Eol];
    seq [lit "#"; sp; lit "@generated"; sp; Eol];
    seq [lit "//"; sp; lit "@generated"; sp; Eol];
    seq [lit "/*"; sp; lit "@generated"; sp; lit "*/"];
    seq [lit "This"; sp1; lit "code"; sp1; lit "was"; sp1; lit "generated";
         sp1; lit "by"];
    seq [lit "Auto-generated"; sp1; lit "by"];
    seq [lit "Generated"; sp1; lit "on"; sp1; digits 4; lit "-"; digits 2;
         lit "-"; digits 2] ].

Definition ai_signatures : list re :=
  [ seq [lit "def"; sp1; ws; lit "("; dots; lit ")"; sp; lit "->"; sp;
         lit "Optional["; dots; lit "]:"; sp; nl; sp;
         q3; lazy_plus Dot; q3; sp; nl; sp;
         lit "try:"; sp; nl; lazy_plus Dot; nl; sp;
         lit "except"; sp1; ws; lit "Exception"; sp1; lit "as"; sp1; lit "e:";
         sp; nl; sp;
         lit ("logger.error(f" ++ dq); lazy_plus Dot; lit ("{e}" ++ dq ++ ")");
         sp; nl; sp; lit "return"; sp1; lit "None"; sp; nl; sp;
         lit "finally:"];
    seq [lit "#"; sp; lit "TODO:"; sp; lit "Implement"; sp1; lit "proper"; sp1;
         lit "error"; sp1; lit "handling"; sp; Eol];
    seq [lit "#"; sp; lit "FIXME:"; sp; lit "This"; sp1; lit "is"; sp1;
         lit "a"; sp1; lit "placeholder"; sp1; lit "implementation"; sp; Eol] ].

(** [__init__]. *)
Definition init : detector :=
  Detector (map (fun r => Compile r MI) explicit_ai_markers)
           (map (fun r => Compile r MS) ai_signatures).

(** [_count_explicit_markers]. *)
Definition _count_explicit_markers (self : detector) (content : string) : nat :=
  count_findall (compiled_explicit self) content.

(** [_count_signature_matches]. *)
Definition _count_signature_matches (self : detector) (content : string) : nat :=
  count_search (compiled_signatures self) content.

(** The scoring of [analyze_content]: from the two counts to the
    confidence. *)
Definition score (explicit_markers signature_matches : nat) : Q :=
  let confidence_score := 0 in
  let confidence_score :=
    if (0 <? explicit_markers)%nat
    then Qmin (Qnat explicit_markers * 0.3) 0.9
    else confidence_score in
  let confidence_score :=
    if (0 <? signature_matches)%nat
    then confidence_score + Qmin (Qnat signature_matches * 0.1) 0.2
    else confidence_score in
  Qmin confidence_score 0.95.

(** [_calculate_conservative_risk]. *)
Definition _calculate_conservative_risk (confidence : Q)
  (explicit_markers signatures : nat) : risk :=
  if (2 <? explicit_markers)%nat || Qgtb confidence 0.8 then HIGH
  else if (0 <? explicit_markers)%nat || Qgtb confidence 0.5 then MEDIUM
  else if (0 <? signatures)%nat || Qgtb confidence 0.2 then LOW
  else MINIMAL.

(** [_generate_analysis_notes]. *)
Definition _generate_analysis_notes (explicit_markers signatures : nat)
  (confidence : Q) : list message :=
  (if (0 <? explicit_markers)%nat
   then [("Found {} explicit AI generation marker(s)",
          Some (Qnat explicit_markers))]
   else [])
  ++ (if (0 <? signatures)%nat
      then [("Detected {} potential AI code signature(s)",
             Some (Qnat signatures))]
      else [])
  ++ [ if Qgtb confidence 0.8
       then ("High confidence of AI generation based on explicit markers", None)
       else if Qgtb confidence 0.5
       then ("Moderate confidence of AI assistance based on patterns", None)
       else if Qgtb confidence 0.2
       then ("Low confidence - may have some AI assistance", None)
       else ("Appears to be primarily human-written code", None) ]
  ++ (if (explicit_markers =? 0)%nat && (signatures =? 0)%nat
      then [("No clear AI generation markers found", None)]
      else []).

(** [_detect_language]: the table is that of the balanced detector. *)
Definition _detect_language (file_extension : string) : string :=
  dict_get Balanced.language_map (lower_string file_extension) "unknown".

(** [_create_empty_analysis]. *)
Definition _create_empty_analysis : result :=
  Result 0 0 0 MINIMAL "unknown"
    [ ("explicit_ai_markers", false); ("ai_signatures_detected", false);
      ("high_confidence_ai", false); ("moderate_confidence_ai", false);
      ("low_confidence_ai", false) ]
    [ ("explicit_markers", 0); ("signature_matches", 0);
      ("total_markers_found", 0); ("confidence_from_markers", 0);
      ("confidence_from_signatures", 0) ]
    [ ("Empty file - no analysis possible", None) ].

(** [analyze_content]; the notes are the [analysis_notes] entry. *)
Definition analyze_content (self : detector) (content file_extension : string)
  : Py.res result :=
  if negb (Str.truthy (Str.strip content)) then Py.Ok _create_empty_analysis
  else
    let lines := filter Balanced.nonblank (Str.split_nl content) in
    let total_lines := Z.of_nat (List.length lines) in
    if (total_lines =? 0)%Z then Py.Ok _create_empty_analysis
    else
      let explicit_markers := _count_explicit_markers self content in
      let signature_matches := _count_signature_matches self content in
      let confidence_score := score explicit_markers signature_matches in
      let risk_level :=
        _calculate_conservative_risk confidence_score explicit_markers
                                     signature_matches in
      let estimated_ai_lines :=
        if Qgtb confidence_score 0.7
        then Py.int (inject_Z total_lines * confidence_score * 0.5)
        else 0%Z in
      Py.Ok (Result confidence_score estimated_ai_lines total_lines risk_level
               (_detect_language file_extension)
               [ ("explicit_ai_markers", (0 <? explicit_markers)%nat);
                 ("ai_signatures_detected", (0 <? signature_matches)%nat);
                 ("high_confidence_ai", Qgtb confidence_score 0.8);
                 ("moderate_confidence_ai",
                  Qltb 0.5 confidence_score && Qle_bool confidence_score 0.8);
                 ("low_confidence_ai",
                  Qltb 0.2 confidence_score && Qle_bool confidence_score 0.5) ]
               [ ("explicit_markers", Qnat explicit_markers);
                 ("signature_matches", Qnat signature_matches);
                 ("total_markers_found",
                  Qnat (explicit_markers + signature_matches));
                 ("confidence_from_markers",
                  Qmin (Qnat explicit_markers * 0.3) 0.9);
                 ("confidence_from_signatures",
                  Qmin (Qnat signature_matches * 0.1) 0.2) ]
               (_generate_analysis_notes explicit_markers signature_matches
                  confidence_score)).

End Conservative.

(** ** Metrics calculator ([src/analyzer/metrics_calculator.py]) *)

Module Metrics.

(** The per-file dictionary; an absent key is [None]. *)
Record file_data : Type := FileData {
  total_lines : option Z;
  code_lines : option Z;
  estimated_copilot_lines : option Z;
  estimated_human_lines : option Z;
  copilot_confidence : option Q
}.

(** [file_results]: relative path to per-file dictionary, in insertion
    order. *)
Definition file_results_t : Type := list (string * file_data).

(** [d.get(key, 0)]. *)
Definition get0 (field : file_data -> option Z) (d : file_data) : Z :=
  match field d with Some v => v | None => 0%Z end.

Definition getq0 (field : file_data -> option Q) (d : file_data) : Q :=
  match field d with Some v => v | None => 0 end.

(** [file_results.values()]. *)
Definition values (file_results : file_results_t) : list file_data :=
  map snd file_results.

(** [sum(d.get(key, 0) for d in file_results.values())]. *)
Definition sum_field (field : file_data -> option Z)
  (file_results : file_results_t) : Z :=
  fold_left Z.add (map (get0 field) (values file_results)) 0%Z.

Record stats : Type := Stats {
  s_min : Q;
  s_max : Q;
  s_mean : Q;
  s_median : Q
}.

Fixpoint insert_sorted (x : Z) (l : list Z) : list Z :=
  match l with
  | [] => [x]
  | y :: l' => if (x <=? y)%Z then x :: l else y :: insert_sorted x l'
  end.

(** [sorted(values)]. *)
Definition sorted (values : list Z) : list Z :=
  fold_right insert_sorted [] values.

(** [_calculate_distribution_stats]. *)
Definition _calculate_distribution_stats (values : list Z) : stats :=
  match values with
  | [] => Stats 0 0 0 0
  | _ =>
      let sorted_values := sorted values in
      let n := List.length sorted_values in
      let at_ (i : nat) := inject_Z (nth i sorted_values 0%Z) in
      Stats (at_ 0%nat) (at_ (n - 1)%nat)
            (inject_Z (fold_left Z.add sorted_values 0%Z) / Qnat n)
            (if (n mod 2 =? 1)%nat then at_ (n / 2)%nat
             else (at_ (n / 2 - 1)%nat + at_ (n / 2)%nat) / 2)
  end.

(** The dictionary [calculate_repository_summary] returns. *)
Record summary : Type := Summary {
  total_files : Z;
  sum_total_lines : Z;
  total_code_lines : Z;
  copilot_lines : Z;
  human_lines : Z;
  copilot_percentage : Q;
  human_percentage : Q;
  average_confidence : Q;
  high_confidence_files : Z;
  high_confidence_percentage : Q;
  file_size_stats : stats
}.

(** [_create_empty_summary]. *)
Definition _create_empty_summary : summary :=
  Summary 0 0 0 0 0 0 0 0 0 0 (Stats 0 0 0 0).

(** [(part / whole * 100) if whole > 0 else 0]. *)
Definition percentage (part whole : Z) : Q :=
  if (0 <? whole)%Z then inject_Z part / inject_Z whole * 100 else 0.

(** [calculate_repository_summary]. *)
Definition calculate_repository_summary (file_results : file_results_t)
  : summary :=
  match file_results with
  | [] => _create_empty_summary
  | _ =>
      let total_files := Z.of_nat (List.length file_results) in
      let total_lines := sum_field total_lines file_results in
      let total_code_lines := sum_field code_lines file_results in
      let total_copilot_lines := sum_field estimated_copilot_lines file_results in
      let total_human_lines := sum_field estimated_human_lines file_results in
      let copilot_percentage := percentage total_copilot_lines total_code_lines in
      let human_percentage := percentage total_human_lines total_code_lines in
      let confidences := map (getq0 copilot_confidence) (values file_results) in
      let avg_confidence :=
        match confidences with
        | [] => 0
        | _ => fold_left Qplus confidences 0 / Qnat (List.length confidences)
        end in
      let file_sizes := map (get0 code_lines) (values file_results) in
      let file_size_stats := _calculate_distribution_stats file_sizes in
      let high_confidence_files :=
        Z.of_nat (count_if (fun f => Qgtb (getq0 copilot_confidence f) 0.7)
                           (values file_results)) in
      Summary total_files total_lines total_code_lines total_copilot_lines
              total_human_lines
              (Py.round2 copilot_percentage)
              (Py.round2 human_percentage)
              (Py.round3 avg_confidence)
              high_confidence_files
              (if (0 <? total_files)%Z
               then Py.round2 (inject_Z high_confidence_files
                               / inject_Z total_files * 100)
               else 0)
              file_size_stats
  end.

End Metrics.

(** ** Values inside [analyze_content], named for the statements *)

Module Inside.

(** The non-blank lines the balanced and the conservative detector count. *)
Definition nonblank_lines (content : string) : Z :=
  Z.of_nat (List.length (filter Balanced.nonblank (Str.split_nl content))).

(** An input the detectors answer with the empty analysis. *)
Definition is_blank (content : string) : bool :=
  negb (Str.truthy (Str.strip content)).

(** Balanced detector: the confidence [analyze_content] hands to
    [_apply_realistic_thresholds], [max(0.0, base_confidence + human_penalty)]. *)
Definition balanced_raw (self : Balanced.detector) (content : string)
  : Py.res Q :=
  let lines := filter Balanced.nonblank (Str.split_nl content) in
  let strong_score := Balanced._analyze_strong_indicators self content in
  moderate_score <- Balanced._analyze_moderate_indicators self content ;;
  weak_score <- Balanced._analyze_weak_indicators self content ;;
  consistency_score <- Balanced._analyze_consistency content lines ;;
  human_score <- Balanced._analyze_human_patterns self content ;;
  Py.Ok (Qmax 0 (Balanced.base_of (Balanced.weights self) strong_score
                   moderate_score weak_score consistency_score
                 + Balanced.penalty_of (Balanced.weights self) human_score)).

(** Balanced detector: the calibrated confidence just before the noise
    floor is applied. *)
Definition balanced_pre_floor (self : Balanced.detector) (content : string)
  : Py.res Q :=
  c <- balanced_raw self content ;;
  Py.Ok (Balanced.pre_floor c (nonblank_lines content)).

(** Realistic detector: the lines [analyze_content] counts. *)
Definition realistic_lines (content : string) : Z :=
  Z.of_nat (List.length (Str.split_nl content)).

(** Realistic detector: the explicit score and the weighted confidence
    handed to [_apply_realistic_thresholds]. *)
Definition realistic_raw (self : Realistic.detector) (content : string)
  : Py.res (Q * Q) :=
  let lines := Str.split_nl content in
  let code_lines := List.length (filter Realistic.is_code lines) in
  let explicit_score := Realistic._analyze_explicit_markers self content in
  subtle_score <-
    (if Qeq_bool explicit_score 0
     then Realistic._analyze_subtle_patterns self content code_lines
     else Py.Ok 0) ;;
  Py.Ok (explicit_score,
         explicit_score * Realistic.w_explicit_markers (Realistic.weights self)
         + subtle_score * Realistic.w_subtle_patterns (Realistic.weights self)).

(** Realistic detector: the calibrated confidence before the noise
    threshold; with explicit markers the source returns before that step,
    and the value is the one returned. *)
Definition realistic_pre_floor (self : Realistic.detector) (content : string)
  : Py.res Q :=
  r <- realistic_raw self content ;;
  let '(explicit_score, confidence) := r in
  Py.Ok (if Qgtb explicit_score 0 then Qmin confidence 0.95
         else Realistic.pre_floor confidence (realistic_lines content)).

(** The range invariant of a result: a confidence in [0,1] and an estimate
    between 0 and the number of analysed lines. *)
Definition in_range (r : result) : Prop :=
  0 <= confidence_score r <= 1
  /\ (0 <= estimated_lines r <= total_analyzed_lines r)%Z.

(** The line break. *)
Definition NL : string := String (ascii_of_nat 10) "".

(** [n] copies of a text, one after the other. *)
Fixpoint repeat_text (n : nat) (s : string) : string :=
  match n with
  | O => EmptyString
  | S n' => s ++ repeat_text n' s
  end.

(** The estimate as the specification words it:
    [round(totalLines * confidence)]. *)
Definition rounded_estimate (r : result) : Z :=
  Py.round (inject_Z (total_analyzed_lines r) * confidence_score r).

(** The estimate the detectors compute: the product rounded down when the
    confidence exceeds the floor, 0 otherwise. *)
Definition truncated_estimate (noise_floor : Q) (r : result) : Z :=
  if Qgtb (confidence_score r) noise_floor
  then Qfloor (inject_Z (total_analyzed_lines r) * confidence_score r)
  else 0%Z.

(** The risk labels in their order. *)
Definition risk_le (a b : risk) : Prop := (risk_rank a <= risk_rank b)%nat.

(** The label of the conservative detector as a step function of the
    confidence alone. *)
Definition conservative_label (confidence : Q) : risk :=
  if Qgtb confidence 0.8 then HIGH
  else if Qltb confidence 0.3
  then (if Qltb confidence 0.1 then MINIMAL else LOW)
  else MEDIUM.

(** The two texts that show the balanced label is not a function of the
    confidence. *)
Definition high_text : string :=
  "# AI-generated" ++ NL ++ "# Auto-generated by" ++ NL
  ++ "from typing import Dict, Any" ++ NL ++ "self.x = y or {}".

Definition medium_text : string :=
  "# AI-generated" ++ NL ++ "# Auto-generated by" ++ NL
  ++ "# TODO: x" ++ NL ++ "get_a()".

(** An empty or whitespace-only text. *)
Fixpoint whitespace_only (s : string) : bool :=
  match s with
  | EmptyString => true
  | String c s' => Str.isspace c && whitespace_only s'
  end.

(** The empty analysis: confidence 0, no lines, risk MINIMAL. *)
Definition is_empty_analysis (r : result) : Prop :=
  confidence_score r = 0
  /\ estimated_lines r = 0%Z
  /\ total_analyzed_lines r = 0%Z
  /\ risk_level r = MINIMAL.

(** A thirty-line text with an explicit marker, and the marker appended on
    a line of its own. *)
Definition thirty_lines : string :=
  high_text ++ NL ++ "# TODO: x" ++ repeat_text 25 (NL ++ "pass").

Definition marker_line : string := NL ++ "# AI-generated".

(** The sum of a field over the per-file results, as the specification
    words it. *)
Definition total (field : Metrics.file_data -> option Z)
  (file_results : Metrics.file_results_t) : Z :=
  fold_right (fun kv acc => (Metrics.get0 field (snd kv) + acc)%Z) 0%Z
             file_results.

(** The percentage as the specification words it:
    [(sum of estimated copilot lines / sum of code lines) * 100], and 0 when
    the code-line sum is 0. *)
Definition exact_percentage (part whole : Z) : Q :=
  if (whole =? 0)%Z then 0 else inject_Z part / inject_Z whole * 100.

(** Line counts are not negative. *)
Definition counts_nonneg (file_results : Metrics.file_results_t) : Prop :=
  Forall (fun kv => (0 <= Metrics.get0 Metrics.code_lines (snd kv))%Z)
         file_results.

(** One file of three code lines, one of them estimated as AI. *)
Definition one_third : Metrics.file_results_t :=
  [ ("a.py", Metrics.FileData (Some 3%Z) (Some 3%Z) (Some 1%Z) (Some 2%Z)
                              (Some 0.3)) ].

(** The three files of the aggregation scenario: 10, 20 and 30 lines with 5,
    4 and 0 estimated AI lines. *)
Definition three_files : Metrics.file_results_t :=
  [ ("a.py", Metrics.FileData (Some 10%Z) (Some 10%Z) (Some 5%Z) (Some 5%Z)
                              (Some 0.5));
    ("b.py", Metrics.FileData (Some 20%Z) (Some 20%Z) (Some 4%Z) (Some 16%Z)
                              (Some 0.2));
    ("c.py", Metrics.FileData (Some 30%Z) (Some 30%Z) (Some 0%Z) (Some 30%Z)
                              (Some 0)) ].

(** The indentation consistency as the specification words it. *)





End Inside.

(** ** Calls on a detector instance

    A method call is a function from the instance before the call to the
    value returned and the instance after it; the scoring reads no clock and
    draws no random number, so the instance and the arguments are all a call
    can depend on. *)

Module Method.

Definition call (S A : Type) : Type := S -> A * S.


Definition bind {S A B : Type} (m : call S A) (k : A -> call S B) : call S B :=
  fun self => let '(a, self') := m self in k a self'.




End Method.

(** ** Code analyzer ([src/analyzer/code_analyzer.py]) *)

Module CodeAnalyzer.

(** What the file system and [hashlib] give for a file: [stat().st_size],
    the modification time as ISO text and the MD5 digest of the content. *)
Record metadata : Type := Metadata {
  st_size : Z;
  mtime_iso : string;
  md5_hex : string
}.

(** The dictionary [_get_file_stats] returns. *)
Record file_stats : Type := FileStats {
  size : Z;
  total_lines : Z;
  code_lines : Z;
  comment_lines : Z;
  blank_lines : Z;
  last_modified : string;
  file_hash : string
}.

(** [stripped.startswith('#') or stripped.startswith('//')
    or stripped.startswith('/*')]. *)
Definition is_comment (stripped : string) : bool :=
  String.prefix "#" stripped || String.prefix "//" stripped
  || String.prefix "/*" stripped.

(** One turn of the classification loop on the counters
    [(code_lines, comment_lines, blank_lines)]. *)
Definition classify (counters : Z * Z * Z) (line : string) : Z * Z * Z :=
  let '(code, comment, blank) := counters in
  let stripped := Str.strip line in
  if negb (Str.truthy stripped) then (code, comment, blank + 1)%Z
  else if is_comment stripped then (code, comment + 1, blank)%Z
  else (code + 1, comment, blank)%Z.

(** [_get_file_stats]. *)
Definition _get_file_stats (meta : metadata) (content : string) : file_stats :=
  let lines := Str.split_nl content in
  let total_lines := Z.of_nat (List.length lines) in
  let '(code, comment, blank) := fold_left classify lines (0, 0, 0)%Z in
  FileStats (st_size meta) total_lines code comment blank (mtime_iso meta)
            (md5_hex meta).

Definition language_map : list (string * string) :=
  [ (".py", "Python"); (".js", "JavaScript"); (".jsx", "JavaScript");
    (".ts", "TypeScript"); (".tsx", "TypeScript"); (".java", "Java");
    (".cpp", "C++"); (".c", "C"); (".go", "Go"); (".rs", "Rust");
    (".php", "PHP"); (".rb", "Ruby"); (".cs", "C#"); (".swift", "Swift");
    (".kt", "Kotlin") ].

(** [_detect_language]: the extension is looked up as it is written. *)
Definition _detect_language (extension : string) : string :=
  dict_get language_map extension "Unknown".

(** The dictionary [_analyze_file] returns for one file. *)
Record file_result : Type := FileResult {
  fr_language : string;
  fr_stats : file_stats;
  copilot_analysis : result;
  estimated_copilot_lines : Z;
  estimated_human_lines : Z;
  copilot_confidence : Q
}.

(** [_analyze_file] from the point where the content has been read, with
    the standard balanced detector selected ([optimized_mode] and
    [evasion_resistance] off): [None] for a blank file and when the analysis
    raises, the combined result otherwise. *)
Definition _analyze_file (copilot_detector : Balanced.detector)
  (meta : metadata) (suffix content : string) : option file_result :=
  if negb (Str.truthy (Str.strip content)) then None
  else
    let file_stats := _get_file_stats meta content in
    match Balanced.analyze_content copilot_detector content suffix with
    | Py.Raise _ => None
    | Py.Ok copilot_analysis =>
        Some (FileResult (_detect_language suffix) file_stats copilot_analysis
                (estimated_lines copilot_analysis)
                (code_lines file_stats - estimated_lines copilot_analysis)%Z
                (confidence_score copilot_analysis))
    end.

(** The entries of a file result the metrics calculator reads. *)
Definition to_file_data (f : file_result) : Metrics.file_data :=
  Metrics.FileData (Some (total_lines (fr_stats f)))
                   (Some (code_lines (fr_stats f)))
                   (Some (estimated_copilot_lines f))
                   (Some (estimated_human_lines f))
                   (Some (copilot_confidence f)).

(** A file as [analyze_repository] meets it: the relative path, the
    metadata, the suffix and the content read. *)
Record source_file : Type := SourceFile {
  relative_path : string;
  file_meta : metadata;
  file_suffix : string;
  file_content : string
}.

(** The [files] dictionary [analyze_repository] fills: the result of
    [_analyze_file] under the relative path, for the files that have one.
    The paths of a repository are distinct; the entries are listed in the
    order the files are given. *)
Fixpoint collect (copilot_detector : Balanced.detector)
  (files : list source_file) : list (string * file_result) :=
  match files with
  | [] => []
  | f :: rest =>
      match _analyze_file copilot_detector (file_meta f) (file_suffix f)
                          (file_content f) with
      | Some file_result =>
          (relative_path f, file_result) :: collect copilot_detector rest
      | None => collect copilot_detector rest
      end
  end.

(** The dictionary as the metrics calculator reads it. *)
Definition to_file_results (files : list (string * file_result))
  : Metrics.file_results_t :=
  map (fun kv => (fst kv, to_file_data (snd kv))) files.

(** [results['summary']] of [analyze_repository]. *)
Definition repository_summary (copilot_detector : Balanced.detector)
  (files : list source_file) : Metrics.summary :=
  Metrics.calculate_repository_summary
    (to_file_results (collect copilot_detector files)).

(** What every result of [_analyze_file] satisfies. *)
Definition sound_entry (f : file_result) : Prop :=
  let s := fr_stats f in
  (estimated_copilot_lines f + estimated_human_lines f
   = code_lines s)%Z
  /\ (0 <= estimated_copilot_lines f <= total_lines s)%Z
  /\ copilot_confidence f <= 0.65.

End CodeAnalyzer.

(** * Properties *)

(** ** Comparisons and arithmetic *)

Lemma Qltb_true x y : Qltb x y = true <-> x < y.
Proof.
  unfold Qltb. rewrite negb_true_iff.
  destruct (Qle_bool y x) eqn:E.
  - apply Qle_bool_iff in E. split; [discriminate | intros H; exfalso; lra].
  - split; [intros _ | reflexivity].
    apply Qnot_le_lt. intros H. apply Qle_bool_iff in H. congruence.
Qed.

Lemma Qltb_false x y : Qltb x y = false <-> y <= x.
Proof.
  unfold Qltb. rewrite negb_false_iff. apply Qle_bool_iff.
Qed.

Lemma Qgtb_true x y : Qgtb x y = true <-> y < x.
Proof. unfold Qgtb. apply (Qltb_true y x). Qed.

Lemma Qgtb_false x y : Qgtb x y = false <-> x <= y.
Proof. unfold Qgtb. apply (Qltb_false y x). Qed.

(** Case analysis on the boolean comparisons and on [Qmin]/[Qmax]; the
    order facts are left in the context. *)
Ltac qmin a b :=
  let S := fresh "S" in
  let m := fresh "m" in
  pose proof (Q.min_spec a b) as S;
  set (m := Qmin a b) in *; clearbody m;
  destruct S as [[? ?] | [? ?]].

Ltac qmax a b :=
  let S := fresh "S" in
  let m := fresh "m" in
  pose proof (Q.max_spec a b) as S;
  set (m := Qmax a b) in *; clearbody m;
  destruct S as [[? ?] | [? ?]].

Ltac qstep :=
  match goal with
  | |- context [Qltb ?a ?b] =>
      let E := fresh "E" in
      destruct (Qltb a b) eqn:E;
      [apply Qltb_true in E | apply Qltb_false in E]
  | |- context [Qgtb ?a ?b] =>
      let E := fresh "E" in
      destruct (Qgtb a b) eqn:E;
      [apply Qgtb_true in E | apply Qgtb_false in E]
  | |- context [Qmin ?a ?b] => qmin a b
  | |- context [Qmax ?a ?b] => qmax a b
  | H : context [Qmin ?a ?b] |- _ => qmin a b
  | H : context [Qmax ?a ?b] |- _ => qmax a b
  end.

Ltac qcases := repeat qstep; intros.

Lemma Qnat_nonneg n : 0 <= Qnat n.
Proof. unfold Qnat, Qle; simpl; lia. Qed.

Lemma Qnat_pos n : (0 < n)%nat -> 0 < Qnat n.
Proof. intros H. unfold Qnat, Qlt; simpl; lia. Qed.

Lemma Qdiv_pos a b : 0 < a -> 0 < b -> 0 < a / b.
Proof.
  intros Ha Hb. apply Qlt_shift_div_l; [exact Hb | lra].
Qed.

Lemma Qdiv_nonneg a b : 0 <= a -> 0 < b -> 0 <= a / b.
Proof.
  intros Ha Hb. apply Qle_shift_div_l; [exact Hb | lra].
Qed.

Lemma div_ok x y : 0 < y -> Py.div x y = Py.Ok (x / y).
Proof.
  intros H. unfold Py.div.
  destruct (Qeq_bool y 0) eqn:E; [| reflexivity].
  apply Qeq_bool_iff in E. lra.
Qed.

(** [int(x)] of a non-negative number lies between [0] and the number. *)
Lemma int_nonneg x : 0 <= x -> (0 <= Py.int x)%Z.
Proof.
  intros H. unfold Py.int. apply Z.quot_pos; [| lia].
  unfold Qle in H; simpl in H. lia.
Qed.

Lemma int_le_bound x (n : Z) : 0 <= x -> x <= inject_Z n -> (Py.int x <= n)%Z.
Proof.
  intros H0 H. unfold Py.int.
  destruct x as [p q]. unfold Qle in *; simpl in *.
  rewrite Z.quot_div_nonneg by lia.
  apply Z.div_le_upper_bound; lia.
Qed.

(** ** Lines of a text *)

Lemma split_nl_nonempty s : Str.split_nl s <> [].
Proof.
  destruct s as [| c s]; simpl; [discriminate |].
  destruct (Str.code c =? 10)%nat; [discriminate |].
  destruct (Str.split_nl s); discriminate.
Qed.

Lemma line_count_pos content : (0 < Balanced.line_count content)%nat.
Proof.
  unfold Balanced.line_count.
  pose proof (split_nl_nonempty content) as H.
  destruct (Str.split_nl content); [congruence | simpl; lia].
Qed.

Lemma per_lines_pos content k :
  0 < k -> 0 < Qnat (Balanced.line_count content) / k.
Proof.
  intros Hk. apply Qdiv_pos; [| exact Hk].
  apply Qnat_pos, line_count_pos.
Qed.

(** ** The text functions and the matcher on examples *)

Example split_keeps_blank_lines :
  Str.split_nl ("a" ++ Inside.NL ++ Inside.NL ++ "b") = ["a"; ""; "b"].
Proof. reflexivity. Qed.

Example strip_both_ends : Str.strip "  a b  " = "a b".
Proof. reflexivity. Qed.

(** [re.findall('a*', 'baac')]: empty matches are reported, also next to a
    match that consumed characters. *)
Example findall_empty_matches :
  Re.findall (Re.Compile (Re.star (Re.lit "a")) Re.no_flags) "baac"
  = [""; "aa"; ""; ""].
Proof. reflexivity. Qed.

(** A group makes [findall] report the group; matches do not overlap. *)
Example findall_function_names :
  Re.findall Balanced.function_name_re "def foo(x): def  bar_1 (y) def baz()"
  = ["foo"; "baz"].
Proof. reflexivity. Qed.

(** The assignment pattern of the human tier matches inside longer names. *)
Example findall_short_assignments :
  Re.findall
    (Re.Compile (Re.seq [Re.Rep 1 2 true Re.w_; P.sp; Re.lit "="; P.sp;
                         Re.Rep 1 2 true Re.w_]) Re.MI)
    "foo = bar; a=b"
  = ["oo = ba"; "a=b"].
Proof. reflexivity. Qed.

(** With MULTILINE the end-of-line anchor holds before each line break, and
    the case of the letters is ignored. *)
Example search_generated_marker :
  Re.search (Re.Compile (Re.seq [Re.lit "@generated"; P.sp; Re.Eol]) Re.MI)
            ("x @GENERATED  " ++ Inside.NL ++ "y") = true
  /\ Re.search (Re.Compile (Re.seq [Re.lit "@generated"; P.sp; Re.Eol]) Re.MI)
               "@generated y" = false.
Proof. split; reflexivity. Qed.

(** The scores of the one-line text [# AI-generated]: one strong pattern of
    six, a saturated human score, and the confidence 41/800. *)
Example balanced_on_one_marker :
  exists r,
    Balanced.analyze_content Balanced.init "# AI-generated" ".py" = Py.Ok r
    /\ confidence_score r == 41 # 800
    /\ risk_level r = MINIMAL
    /\ language r = "python".
Proof.
  eexists. split; [vm_compute; reflexivity |]. repeat split; reflexivity.
Qed.

(** ** The balanced detector returns *)

Lemma Qsquare_nonneg y : 0 <= y * y.
Proof.
  destruct y as [p q]. unfold Qle, Qmult; simpl. nia.
Qed.

Lemma Qsum_squares_nonneg mu data :
  0 <= Statistics.Qsum (map (fun x => (x - mu) * (x - mu)) data).
Proof.
  induction data as [| x data IH]; simpl; [lra |].
  pose proof (Qsquare_nonneg (x - mu)). lra.
Qed.

Lemma variance_ok data :
  (2 <= List.length data)%nat ->
  exists v, Statistics.variance data = Py.Ok v /\ 0 <= v.
Proof.
  intros H. unfold Statistics.variance.
  destruct (List.length data <? 2)%nat eqn:E.
  - apply Nat.ltb_lt in E. lia.
  - eexists. split; [reflexivity |].
    apply Qdiv_nonneg; [apply Qsum_squares_nonneg |].
    apply Qnat_pos. lia.
Qed.

Lemma indentation_consistency_ok indentations :
  exists q, Balanced._calculate_indentation_consistency indentations = Py.Ok q.
Proof.
  unfold Balanced._calculate_indentation_consistency.
  destruct (List.length indentations <=? 1)%nat eqn:L; [eauto |].
  destruct (_ && _); [eauto |].
  apply Nat.leb_gt in L.
  assert (E : (1 <? List.length indentations)%nat = true)
    by (apply Nat.ltb_lt; lia).
  rewrite E.
  destruct (variance_ok (map Qnat indentations)) as [v [-> _]].
  { rewrite length_map. lia. }
  cbn [Py.bind].
  set (mx := match indentations with [] => 1%nat | _ => _ end).
  rewrite div_ok; [cbn [Py.bind]; eauto |].
  pose proof (Qnat_nonneg mx). lra.
Qed.

Lemma moderate_loop_ok categories content :
  forall t n, exists r, Balanced.moderate_loop categories content t n = Py.Ok r.
Proof.
  induction categories as [| c cs IH]; intros t n; simpl; [eauto |].
  rewrite div_ok by (apply per_lines_pos; lra). simpl. apply IH.
Qed.

Lemma moderate_ok self content :
  exists q, Balanced._analyze_moderate_indicators self content = Py.Ok q.
Proof.
  unfold Balanced._analyze_moderate_indicators.
  destruct (moderate_loop_ok (Balanced.compiled_moderate self) content 0 0%Z)
    as [[t n] ->].
  simpl. eauto.
Qed.

Lemma weak_ok self content :
  exists q, Balanced._analyze_weak_indicators self content = Py.Ok q.
Proof.
  unfold Balanced._analyze_weak_indicators.
  rewrite div_ok by (apply per_lines_pos; lra). simpl. eauto.
Qed.

Lemma human_ok self content :
  exists q, Balanced._analyze_human_patterns self content = Py.Ok q.
Proof.
  unfold Balanced._analyze_human_patterns.
  rewrite div_ok by (apply per_lines_pos; lra). simpl. eauto.
Qed.

Lemma consistency_ok content lines :
  exists q, Balanced._analyze_consistency content lines = Py.Ok q.
Proof.
  unfold Balanced._analyze_consistency.
  destruct (indentation_consistency_ok
              (map Balanced.indent_width (filter Balanced.nonblank lines)))
    as [q ->].
  simpl. eauto.
Qed.

Lemma balanced_raw_ok self content :
  exists c, Inside.balanced_raw self content = Py.Ok c /\ 0 <= c.
Proof.
  unfold Inside.balanced_raw.
  destruct (moderate_ok self content) as [mo ->].
  destruct (weak_ok self content) as [we ->].
  destruct (consistency_ok content
              (filter Balanced.nonblank (Str.split_nl content))) as [co ->].
  destruct (human_ok self content) as [hu ->].
  cbn [Py.bind]. eexists. split; [reflexivity |].
  apply Q.le_max_l.
Qed.

(** What [analyze_content] of the balanced detector returns, in terms of
    the raw confidence. *)
Lemma balanced_analyze_shape self content ext :
  exists c, Inside.balanced_raw self content = Py.Ok c /\ 0 <= c /\
  exists r, Balanced.analyze_content self content ext = Py.Ok r /\
    (r = Balanced._create_empty_analysis
     \/ (Inside.is_blank content = false
         /\ (0 < Inside.nonblank_lines content)%Z
         /\ total_analyzed_lines r = Inside.nonblank_lines content
         /\ confidence_score r
            = Balanced._apply_realistic_thresholds c (Inside.nonblank_lines content)
         /\ estimated_lines r
            = (if Qgtb (confidence_score r) 0.05
               then Py.int (inject_Z (total_analyzed_lines r) * confidence_score r)
               else 0%Z)
         /\ exists strong moderate,
              risk_level r
              = Balanced._calculate_balanced_risk (confidence_score r)
                  strong moderate)).
Proof.
  destruct (balanced_raw_ok self content) as [c [Hc Hc0]].
  exists c. split; [exact Hc |]. split; [exact Hc0 |].
  revert Hc. unfold Inside.balanced_raw, Balanced.analyze_content.
  destruct (negb (Str.truthy (Str.strip content))) eqn:B.
  { intros _. eexists. split; [reflexivity | left; reflexivity]. }
  fold (Inside.nonblank_lines content).
  destruct (Inside.nonblank_lines content =? 0)%Z eqn:Z0.
  { intros _. eexists. split; [reflexivity | left; reflexivity]. }
  destruct (moderate_ok self content) as [mo ->].
  destruct (weak_ok self content) as [we ->].
  destruct (consistency_ok content
              (filter Balanced.nonblank (Str.split_nl content))) as [co ->].
  destruct (human_ok self content) as [hu ->].
  cbn [Py.bind]. intros Hc. injection Hc as <-.
  eexists. split; [reflexivity |]. right.
  cbn [total_analyzed_lines confidence_score estimated_lines risk_level].
  apply Z.eqb_neq in Z0.
  assert (0 <= Inside.nonblank_lines content)%Z
    by (unfold Inside.nonblank_lines; lia).
  repeat split; try reflexivity; try lia; eauto.
Qed.

(** ** The realistic detector returns *)

Lemma Qnat_ge_1 n : (1 <= n)%nat -> 1 <= Qnat n.
Proof. intros H. unfold Qnat, Qle; simpl; lia. Qed.

Lemma explicit_score_cases self content :
  Realistic._analyze_explicit_markers self content == 0
  \/ 0.3 <= Realistic._analyze_explicit_markers self content <= 1.
Proof.
  unfold Realistic._analyze_explicit_markers.
  set (k := count_findall (Realistic.compiled_explicit self) content).
  destruct k as [| k].
  - left. reflexivity.
  - right. pose proof (Qnat_ge_1 (S k) ltac:(lia)). qcases; lra.
Qed.

Lemma subtle_ok self content code_lines :
  exists s, Realistic._analyze_subtle_patterns self content code_lines = Py.Ok s
            /\ 0 <= s <= 0.1.
Proof.
  unfold Realistic._analyze_subtle_patterns.
  destruct (code_lines <? 10)%nat eqn:E.
  - eexists. split; [reflexivity | lra].
  - apply Nat.ltb_ge in E.
    assert (Hd : 0 < Qnat code_lines / 20)
      by (apply Qdiv_pos; [apply Qnat_pos; lia | lra]).
    rewrite div_ok by exact Hd. cbn [Py.bind].
    eexists. split; [reflexivity |].
    pose proof (Qdiv_nonneg
      (Qnat (count_findall (Realistic.compiled_subtle self) content))
      (Qnat code_lines / 20) (Qnat_nonneg _) Hd).
    qcases; lra.
Qed.

(** The raw values of the realistic detector: with a marker the confidence
    is 0.8 times a score of at least 0.3, without one it is at most 0.01. *)
Lemma realistic_raw_ok content :
  exists e c, Inside.realistic_raw Realistic.init content = Py.Ok (e, c)
    /\ ((Qgtb e 0 = true /\ 0.3 <= e <= 1 /\ c == e * 0.8)
        \/ (Qgtb e 0 = false /\ 0 <= c <= 0.01)).
Proof.
  unfold Inside.realistic_raw.
  set (e := Realistic._analyze_explicit_markers Realistic.init content).
  destruct (explicit_score_cases Realistic.init content) as [H | H]; fold e in H.
  - assert (E : Qeq_bool e 0 = true) by (apply Qeq_bool_iff; exact H).
    rewrite E.
    destruct (subtle_ok Realistic.init content
                (List.length (filter Realistic.is_code (Str.split_nl content))))
      as [s [-> Hs]].
    cbn [Py.bind]. do 2 eexists. split; [reflexivity |]. right.
    split; [apply Qgtb_false; lra |].
    cbn [Realistic.weights Realistic.init Realistic._initialize_weights
         Realistic.w_explicit_markers Realistic.w_subtle_patterns].
    lra.
  - assert (E : Qeq_bool e 0 = false).
    { destruct (Qeq_bool e 0) eqn:E; [| reflexivity].
      apply Qeq_bool_iff in E. lra. }
    rewrite E. cbn [Py.bind]. do 2 eexists. split; [reflexivity |]. left.
    split; [apply Qgtb_true; lra |]. split; [exact H |].
    cbn [Realistic.weights Realistic.init Realistic._initialize_weights
         Realistic.w_explicit_markers Realistic.w_subtle_patterns].
    lra.
Qed.

(** What [analyze_content] of the realistic detector returns. *)
Lemma realistic_analyze_shape content ext :
  exists e c, Inside.realistic_raw Realistic.init content = Py.Ok (e, c)
    /\ ((Qgtb e 0 = true /\ 0.3 <= e <= 1 /\ c == e * 0.8)
        \/ (Qgtb e 0 = false /\ 0 <= c <= 0.01))
    /\ exists r, Realistic.analyze_content Realistic.init content ext = Py.Ok r /\
       (r = Realistic._create_empty_analysis
        \/ (Inside.is_blank content = false
            /\ total_analyzed_lines r = Inside.realistic_lines content
            /\ confidence_score r
               = Realistic._apply_realistic_thresholds c
                   (Inside.realistic_lines content) (Qgtb e 0)
            /\ estimated_lines r
               = (if Qgtb (confidence_score r) 0.02
                  then Py.int (inject_Z (total_analyzed_lines r)
                               * confidence_score r)
                  else 0%Z)
            /\ risk_level r
               = Realistic._calculate_risk_level (confidence_score r)
                   (Qgtb e 0))).
Proof.
  destruct (realistic_raw_ok content) as [e [c [H Hc]]].
  exists e, c. split; [exact H |]. split; [exact Hc |].
  revert H. unfold Inside.realistic_raw, Realistic.analyze_content.
  destruct (negb (Str.truthy (Str.strip content))) eqn:B.
  { intros _. eexists. split; [reflexivity | left; reflexivity]. }
  destruct (if Qeq_bool _ 0 then _ else _) as [s | x]; cbn [Py.bind];
    [| discriminate].
  intros H. injection H as <- <-.
  eexists. split; [reflexivity |]. right.
  cbn [total_analyzed_lines confidence_score estimated_lines risk_level].
  split; [exact B |]. repeat split; reflexivity.
Qed.

(** ** The conservative detector *)

Lemma conservative_score_range e s : 0 <= Conservative.score e s <= 0.95.
Proof.
  unfold Conservative.score.
  pose proof (Qnat_nonneg e). pose proof (Qnat_nonneg s).
  destruct (0 <? e)%nat; destruct (0 <? s)%nat; qcases; lra.
Qed.

Lemma conservative_analyze_shape content ext :
  exists r, Conservative.analyze_content Conservative.init content ext = Py.Ok r /\
    (r = Conservative._create_empty_analysis
     \/ (Inside.is_blank content = false
         /\ (0 < Inside.nonblank_lines content)%Z
         /\ total_analyzed_lines r = Inside.nonblank_lines content
         /\ (exists e s,
               e = Conservative._count_explicit_markers Conservative.init content
               /\ s = Conservative._count_signature_matches Conservative.init
                       content
               /\ confidence_score r = Conservative.score e s
               /\ risk_level r
                  = Conservative._calculate_conservative_risk
                      (confidence_score r) e s)
         /\ estimated_lines r
            = (if Qgtb (confidence_score r) 0.7
               then Py.int (inject_Z (total_analyzed_lines r)
                            * confidence_score r * 0.5)
               else 0%Z))).
Proof.
  unfold Conservative.analyze_content.
  destruct (negb (Str.truthy (Str.strip content))) eqn:B.
  { eexists. split; [reflexivity | left; reflexivity]. }
  fold (Inside.nonblank_lines content).
  destruct (Inside.nonblank_lines content =? 0)%Z eqn:Z0.
  { eexists. split; [reflexivity | left; reflexivity]. }
  eexists. split; [reflexivity |]. right.
  cbn [total_analyzed_lines confidence_score estimated_lines risk_level].
  apply Z.eqb_neq in Z0.
  assert (0 <= Inside.nonblank_lines content)%Z
    by (unfold Inside.nonblank_lines; lia).
  split; [exact B |]. split; [lia |]. split; [reflexivity |].
  split; [| reflexivity]. do 2 eexists. repeat split; reflexivity.
Qed.

(** ** Range of the results *)

Lemma empty_in_range r :
  confidence_score r = 0 -> estimated_lines r = 0%Z ->
  total_analyzed_lines r = 0%Z -> Inside.in_range r.
Proof.
  intros Hc He Ht. unfold Inside.in_range. rewrite Hc, He, Ht.
  split; [lra | lia].
Qed.

Lemma scaled_bounds (n : Z) (c : Q) :
  (0 <= n)%Z -> 0 <= c <= 1 -> 0 <= inject_Z n * c <= inject_Z n.
Proof.
  intros Hn Hc.
  assert (Hq : 0 <= inject_Z n) by (unfold Qle; simpl; lia).
  split; [apply Qmult_le_0_compat; lra |].
  assert (c * inject_Z n <= 1 * inject_Z n)
    by (apply Qmult_le_compat_r; lra).
  lra.
Qed.

(** An estimate [int(n * c)] with [c] in [0,1] lies in [0, n]. *)
Lemma estimate_in_range (n : Z) (c : Q) :
  (0 <= n)%Z -> 0 <= c <= 1 ->
  (0 <= Py.int (inject_Z n * c) <= n)%Z.
Proof.
  intros Hn Hc. pose proof (scaled_bounds n c Hn Hc).
  split; [apply int_nonneg | apply int_le_bound]; lra.
Qed.

Lemma balanced_thresholds_range c n :
  0 <= Balanced._apply_realistic_thresholds c n <= 0.75.
Proof.
  unfold Balanced._apply_realistic_thresholds, Balanced.post_floor.
  qcases; lra.
Qed.

Lemma realistic_thresholds_range e c n :
  (Qgtb e 0 = true /\ 0.3 <= e <= 1 /\ c == e * 0.8)
  \/ (Qgtb e 0 = false /\ 0 <= c <= 0.01) ->
  0 <= Realistic._apply_realistic_thresholds c n (Qgtb e 0) <= 0.95.
Proof.
  unfold Realistic._apply_realistic_thresholds, Realistic.floor_step,
    Realistic.pre_floor.
  intros [[-> [He Hc]] | [-> Hc]].
  - qcases; lra.
  - destruct (n <? 30)%Z; [| destruct (n <? 100)%Z]; qcases; lra.
Qed.

Lemma balanced_in_range self content ext :
  exists r, Balanced.analyze_content self content ext = Py.Ok r
            /\ Inside.in_range r.
Proof.
  destruct (balanced_analyze_shape self content ext)
    as [c [_ [_ [r [Hr [E0 | [_ [Hn [Ht [Hc [He _]]]]]]]]]]];
    exists r; (split; [exact Hr |]).
  - subst r. apply empty_in_range; reflexivity.
  - pose proof (balanced_thresholds_range c (Inside.nonblank_lines content)) as Hb.
    rewrite <- Hc in Hb. unfold Inside.in_range. split; [lra |].
    rewrite He. destruct (Qgtb (confidence_score r) 0.05).
    + apply estimate_in_range; [lia | lra].
    + lia.
Qed.

Lemma realistic_in_range content ext :
  exists r, Realistic.analyze_content Realistic.init content ext = Py.Ok r
            /\ Inside.in_range r.
Proof.
  destruct (realistic_analyze_shape content ext)
    as [e [c [_ [Hc [r [Hr [E0 | [_ [Ht [Hf [He _]]]]]]]]]]];
    exists r; (split; [exact Hr |]).
  - subst r. apply empty_in_range; reflexivity.
  - pose proof (realistic_thresholds_range e c (Inside.realistic_lines content) Hc)
      as Hb.
    rewrite <- Hf in Hb. unfold Inside.in_range. split; [lra |].
    assert (0 <= total_analyzed_lines r)%Z
      by (rewrite Ht; unfold Inside.realistic_lines; lia).
    rewrite He. destruct (Qgtb (confidence_score r) 0.02).
    + apply estimate_in_range; [lia | lra].
    + lia.
Qed.

Lemma conservative_in_range content ext :
  exists r, Conservative.analyze_content Conservative.init content ext = Py.Ok r
            /\ Inside.in_range r.
Proof.
  destruct (conservative_analyze_shape content ext)
    as [r [Hr [E0 | [_ [Hn [Ht [[e [s [_ [_ [Hc _]]]]] He]]]]]]];
    exists r; (split; [exact Hr |]).
  - subst r. apply empty_in_range; reflexivity.
  - pose proof (conservative_score_range e s) as Hb.
    rewrite <- Hc in Hb. unfold Inside.in_range. split; [lra |].
    rewrite He. destruct (Qgtb (confidence_score r) 0.7).
    + pose proof (scaled_bounds (total_analyzed_lines r) (confidence_score r)
                    ltac:(lia) ltac:(lra)).
      split; [apply int_nonneg | apply int_le_bound]; lra.
    + lia.
Qed.

(** C1. For every text and extension, [analyze_content] of the balanced,
    the realistic and the conservative detector returns a result whose
    confidence lies in [0,1] and whose estimated AI line count lies between
    0 and its [total_analyzed_lines]. *)
Theorem C1_results_in_range (content file_extension : string) :
  (exists r, Balanced.analyze_content Balanced.init content file_extension
             = Py.Ok r /\ Inside.in_range r)
  /\ (exists r, Realistic.analyze_content Realistic.init content file_extension
                = Py.Ok r /\ Inside.in_range r)
  /\ (exists r, Conservative.analyze_content Conservative.init content
                  file_extension = Py.Ok r /\ Inside.in_range r).
Proof.
  split; [apply balanced_in_range |].
  split; [apply realistic_in_range | apply conservative_in_range].
Qed.

(** C10. The confidence the balanced detector returns never exceeds 0.75:
    [_apply_realistic_thresholds] ends with the cap [min(..., 0.75)]. *)
Theorem C10_balanced_confidence_cap (content file_extension : string) :
  exists r, Balanced.analyze_content Balanced.init content file_extension
            = Py.Ok r
            /\ confidence_score r <= 0.75.
Proof.
  destruct (balanced_analyze_shape Balanced.init content file_extension)
    as [c [_ [_ [r [Hr [E0 | [_ [_ [_ [Hc _]]]]]]]]]];
    exists r; (split; [exact Hr |]).
  - subst r. simpl. lra.
  - rewrite Hc. apply balanced_thresholds_range.
Qed.

(** ** The noise floor *)

Lemma balanced_post_floor_zero p : p < 0.05 -> Balanced.post_floor p = 0.
Proof.
  intros H. unfold Balanced.post_floor.
  apply Qltb_true in H. rewrite H. reflexivity.
Qed.

Lemma realistic_floor_zero p : p < 0.02 -> Realistic.floor_step p = 0.
Proof.
  intros H. unfold Realistic.floor_step.
  apply Qltb_true in H. rewrite H. reflexivity.
Qed.

Lemma balanced_noise_floor content ext p :
  Inside.balanced_pre_floor Balanced.init content = Py.Ok p ->
  p < 0.05 ->
  exists r, Balanced.analyze_content Balanced.init content ext = Py.Ok r
            /\ confidence_score r = 0.
Proof.
  intros Hp Hlt.
  destruct (balanced_analyze_shape Balanced.init content ext)
    as [c [Hc [_ [r [Hr [E0 | [_ [_ [_ [Hf _]]]]]]]]]];
    exists r; (split; [exact Hr |]).
  - subst r. reflexivity.
  - unfold Inside.balanced_pre_floor in Hp. rewrite Hc in Hp.
    cbn [Py.bind] in Hp. injection Hp as <-.
    rewrite Hf. unfold Balanced._apply_realistic_thresholds.
    apply balanced_post_floor_zero. exact Hlt.
Qed.

Lemma realistic_noise_floor content ext p :
  Inside.realistic_pre_floor Realistic.init content = Py.Ok p ->
  p < 0.02 ->
  exists r, Realistic.analyze_content Realistic.init content ext = Py.Ok r
            /\ confidence_score r = 0.
Proof.
  intros Hp Hlt.
  destruct (realistic_analyze_shape content ext)
    as [e [c [Hraw [Hc [r [Hr [E0 | [_ [_ [Hf _]]]]]]]]]];
    exists r; (split; [exact Hr |]).
  - subst r. reflexivity.
  - unfold Inside.realistic_pre_floor in Hp. rewrite Hraw in Hp.
    cbn [Py.bind] in Hp. injection Hp as <-.
    rewrite Hf. unfold Realistic._apply_realistic_thresholds.
    destruct Hc as [[G [He Hc]] | [G Hc]]; rewrite G in *.
    + exfalso. revert Hlt. qcases; lra.
    + apply realistic_floor_zero. exact Hlt.
Qed.

(** C2. Whenever the calibrated confidence before the floor is below the
    noise floor of the variant (0.05 balanced, 0.02 realistic), the
    confidence [analyze_content] returns is exactly 0. *)
Theorem C2_noise_floor_zeroes (content file_extension : string) :
  (forall p,
     Inside.balanced_pre_floor Balanced.init content = Py.Ok p -> p < 0.05 ->
     exists r, Balanced.analyze_content Balanced.init content file_extension
               = Py.Ok r /\ confidence_score r = 0)
  /\ (forall p,
        Inside.realistic_pre_floor Realistic.init content = Py.Ok p ->
        p < 0.02 ->
        exists r, Realistic.analyze_content Realistic.init content
                    file_extension = Py.Ok r /\ confidence_score r = 0).
Proof.
  split; intros p Hp Hlt.
  - exact (balanced_noise_floor content file_extension p Hp Hlt).
  - exact (realistic_noise_floor content file_extension p Hp Hlt).
Qed.

(** The one-line text [x] is below both floors. *)
Lemma C2_noise_floor_witness :
  (exists r, Balanced.analyze_content Balanced.init "x" ".py" = Py.Ok r
             /\ confidence_score r = 0)
  /\ (exists r, Realistic.analyze_content Realistic.init "x" ".py" = Py.Ok r
                /\ confidence_score r = 0).
Proof.
  destruct (C2_noise_floor_zeroes "x" ".py") as [Hb Hr].
  split.
  - eapply Hb; [vm_compute; reflexivity | reflexivity].
  - eapply Hr; [vm_compute; reflexivity | reflexivity].
Defined.

(** ** The estimated line count *)

Lemma int_floor x : 0 <= x -> Py.int x = Qfloor x.
Proof.
  intros H. destruct x as [p q]. unfold Py.int, Qle in *; simpl in *.
  apply Z.quot_div_nonneg; lia.
Qed.

Lemma balanced_estimate content ext :
  exists r, Balanced.analyze_content Balanced.init content ext = Py.Ok r
            /\ estimated_lines r = Inside.truncated_estimate 0.05 r.
Proof.
  destruct (balanced_analyze_shape Balanced.init content ext)
    as [c [_ [_ [r [Hr [E0 | [_ [Hn [Ht [Hc [He _]]]]]]]]]]];
    exists r; (split; [exact Hr |]).
  - subst r. reflexivity.
  - pose proof (balanced_thresholds_range c (Inside.nonblank_lines content)) as Hb.
    rewrite <- Hc in Hb.
    rewrite He. unfold Inside.truncated_estimate.
    destruct (Qgtb (confidence_score r) 0.05); [| reflexivity].
    apply int_floor.
    apply (scaled_bounds (total_analyzed_lines r) (confidence_score r));
      [lia | lra].
Qed.

Lemma realistic_estimate content ext :
  exists r, Realistic.analyze_content Realistic.init content ext = Py.Ok r
            /\ estimated_lines r = Inside.truncated_estimate 0.02 r.
Proof.
  destruct (realistic_analyze_shape content ext)
    as [e [c [_ [Hc [r [Hr [E0 | [_ [Ht [Hf [He _]]]]]]]]]]];
    exists r; (split; [exact Hr |]).
  - subst r. reflexivity.
  - pose proof (realistic_thresholds_range e c (Inside.realistic_lines content) Hc)
      as Hb.
    rewrite <- Hf in Hb.
    assert (0 <= total_analyzed_lines r)%Z
      by (rewrite Ht; unfold Inside.realistic_lines; lia).
    rewrite He. unfold Inside.truncated_estimate.
    destruct (Qgtb (confidence_score r) 0.02); [| reflexivity].
    apply int_floor.
    apply (scaled_bounds (total_analyzed_lines r) (confidence_score r));
      [lia | lra].
Qed.

(** C3, as the code has it. For every input the balanced and the realistic
    detector return as estimate the product [totalLines * confidence] rounded
    down (Python's [int]) when the confidence exceeds the noise floor of the
    variant (0.05, 0.02), and 0 otherwise; in particular 0 below the floor. *)
Theorem C3_estimate_truncates (content file_extension : string) :
  (exists r, Balanced.analyze_content Balanced.init content file_extension
             = Py.Ok r
             /\ estimated_lines r = Inside.truncated_estimate 0.05 r)
  /\ (exists r, Realistic.analyze_content Realistic.init content file_extension
                = Py.Ok r
                /\ estimated_lines r = Inside.truncated_estimate 0.02 r).
Proof.
  split; [apply balanced_estimate | apply realistic_estimate].
Qed.

(** C3 as stated fails: on the three-line text [# AI-generated], [a], [b]
    the realistic detector returns confidence 0.24 and estimate
    [int(0.72) = 0], whereas [round(3 * 0.24) = 1]. *)
Lemma C3_round_counterexample :
  exists r,
    Realistic.analyze_content Realistic.init
      ("# AI-generated" ++ Inside.NL ++ "a" ++ Inside.NL ++ "b") ".py"
    = Py.Ok r
    /\ total_analyzed_lines r = 3%Z
    /\ confidence_score r == 0.24
    /\ estimated_lines r = 0%Z
    /\ Inside.rounded_estimate r = 1%Z
    /\ estimated_lines r <> Inside.rounded_estimate r.
Proof.
  eexists. split; [vm_compute; reflexivity |].
  repeat split; try reflexivity. discriminate.
Qed.

(** ** Risk labels and the confidence *)

Lemma realistic_label_monotone c1 c2 :
  c1 <= c2 ->
  Inside.risk_le (Realistic._calculate_risk_level c1 true)
                 (Realistic._calculate_risk_level c2 true).
Proof.
  intros H. unfold Inside.risk_le, Realistic._calculate_risk_level.
  cbn [andb]. qcases; simpl; try lia; lra.
Qed.

(** Without an explicit marker the confidence stays below 0.7, so the flag
    does not change the label. *)
Lemma realistic_label_by_confidence e c n :
  (Qgtb e 0 = true /\ 0.3 <= e <= 1 /\ c == e * 0.8)
  \/ (Qgtb e 0 = false /\ 0 <= c <= 0.01) ->
  Realistic._calculate_risk_level
    (Realistic._apply_realistic_thresholds c n (Qgtb e 0)) (Qgtb e 0)
  = Realistic._calculate_risk_level
      (Realistic._apply_realistic_thresholds c n (Qgtb e 0)) true.
Proof.
  intros H.
  pose proof (realistic_thresholds_range e c n H) as Hr.
  destruct H as [[G _] | [G Hc]]; rewrite G in *; [reflexivity |].
  revert Hr.
  unfold Realistic._apply_realistic_thresholds, Realistic.floor_step,
    Realistic.pre_floor, Realistic._calculate_risk_level. cbn [andb].
  destruct (n <? 30)%Z; [| destruct (n <? 100)%Z];
    qcases; try reflexivity; lra.
Qed.

Lemma realistic_label content ext :
  exists r, Realistic.analyze_content Realistic.init content ext = Py.Ok r
            /\ risk_level r
               = Realistic._calculate_risk_level (confidence_score r) true.
Proof.
  destruct (realistic_analyze_shape content ext)
    as [e [c [_ [Hc [r [Hr [E0 | [_ [_ [Hf [_ Hk]]]]]]]]]]];
    exists r; (split; [exact Hr |]).
  - subst r. reflexivity.
  - rewrite Hk, Hf. apply realistic_label_by_confidence. exact Hc.
Qed.

Lemma conservative_label_monotone c1 c2 :
  c1 <= c2 ->
  Inside.risk_le (Inside.conservative_label c1) (Inside.conservative_label c2).
Proof.
  intros H. unfold Inside.risk_le, Inside.conservative_label.
  qcases; simpl; try lia; lra.
Qed.

Lemma Qnat_S n : Qnat (S n) == Qnat n + 1.
Proof.
  unfold Qnat. rewrite Nat2Z.inj_succ, <- Z.add_1_r, inject_Z_plus. reflexivity.
Qed.

Lemma conservative_label_by_confidence e s :
  Conservative._calculate_conservative_risk (Conservative.score e s) e s
  = Inside.conservative_label (Conservative.score e s).
Proof.
  unfold Conservative._calculate_conservative_risk, Inside.conservative_label,
    Conservative.score.
  pose proof (Qnat_nonneg s) as Hs0.
  destruct e as [| [| [| e]]]; destruct s as [| s];
    cbn [Nat.ltb Nat.leb orb];
    repeat match goal with
    | |- context [Qnat (S ?k)] =>
        let H := fresh "H" in
        pose proof (Qnat_S k) as H; revert H; generalize (Qnat (S k)); intros
    end;
    repeat match goal with
    | H : context [Qnat (S ?k)] |- _ => rewrite (Qnat_S k) in H
    end;
    try (pose proof (Qnat_nonneg e)); try (pose proof (Qnat_nonneg s));
    change (Qnat 0) with 0 in *;
    qcases; try reflexivity; exfalso; lra.
Qed.

Lemma conservative_label_of content ext :
  exists r, Conservative.analyze_content Conservative.init content ext = Py.Ok r
            /\ risk_level r = Inside.conservative_label (confidence_score r).
Proof.
  destruct (conservative_analyze_shape content ext)
    as [r [Hr [E0 | [_ [_ [_ [[e [s [_ [_ [Hc Hk]]]]] _]]]]]]];
    exists r; (split; [exact Hr |]).
  - subst r. reflexivity.
  - rewrite Hk, Hc. apply conservative_label_by_confidence.
Qed.

Lemma balanced_label_monotone s m c1 c2 :
  c1 <= c2 ->
  Inside.risk_le (Balanced._calculate_balanced_risk c1 s m)
                 (Balanced._calculate_balanced_risk c2 s m).
Proof.
  intros H. unfold Inside.risk_le, Balanced._calculate_balanced_risk.
  destruct (Qgtb s 0.5); [simpl; lia |].
  destruct (Qgtb s 0.2); cbn [orb].
  - qcases; simpl; try lia; lra.
  - destruct (Qgtb m 0.5); cbn [orb]; [qcases; simpl; try lia; lra |].
    destruct (Qgtb m 0.2); cbn [orb]; qcases; simpl; try lia; lra.
Qed.

Lemma realistic_risk_monotone c1 x1 c2 x2 r1 r2 :
  Realistic.analyze_content Realistic.init c1 x1 = Py.Ok r1 ->
  Realistic.analyze_content Realistic.init c2 x2 = Py.Ok r2 ->
  confidence_score r1 <= confidence_score r2 ->
  Inside.risk_le (risk_level r1) (risk_level r2).
Proof.
  intros H1 H2 Hle.
  destruct (realistic_label c1 x1) as [r1' [E1 L1]].
  destruct (realistic_label c2 x2) as [r2' [E2 L2]].
  rewrite H1 in E1. rewrite H2 in E2.
  injection E1 as <-. injection E2 as <-.
  rewrite L1, L2. apply realistic_label_monotone. exact Hle.
Qed.

Lemma conservative_risk_monotone c1 x1 c2 x2 r1 r2 :
  Conservative.analyze_content Conservative.init c1 x1 = Py.Ok r1 ->
  Conservative.analyze_content Conservative.init c2 x2 = Py.Ok r2 ->
  confidence_score r1 <= confidence_score r2 ->
  Inside.risk_le (risk_level r1) (risk_level r2).
Proof.
  intros H1 H2 Hle.
  destruct (conservative_label_of c1 x1) as [r1' [E1 L1]].
  destruct (conservative_label_of c2 x2) as [r2' [E2 L2]].
  rewrite H1 in E1. rewrite H2 in E2.
  injection E1 as <-. injection E2 as <-.
  rewrite L1, L2. apply conservative_label_monotone. exact Hle.
Qed.

(** C4, as the code has it. For the realistic and the conservative detector
    the risk label is a monotone function of the final confidence alone: of
    two analysed inputs, the one with the higher or equal confidence never
    gets the lower label. For the balanced detector the label also depends
    on the strong and moderate scores; with those two fixed it is monotone
    in the confidence. *)
Theorem C4_risk_monotone_in_confidence :
  (forall c1 x1 c2 x2 r1 r2,
     Realistic.analyze_content Realistic.init c1 x1 = Py.Ok r1 ->
     Realistic.analyze_content Realistic.init c2 x2 = Py.Ok r2 ->
     confidence_score r1 <= confidence_score r2 ->
     Inside.risk_le (risk_level r1) (risk_level r2))
  /\ (forall c1 x1 c2 x2 r1 r2,
        Conservative.analyze_content Conservative.init c1 x1 = Py.Ok r1 ->
        Conservative.analyze_content Conservative.init c2 x2 = Py.Ok r2 ->
        confidence_score r1 <= confidence_score r2 ->
        Inside.risk_le (risk_level r1) (risk_level r2))
  /\ (forall strong_score moderate_score c1 c2,
        c1 <= c2 ->
        Inside.risk_le
          (Balanced._calculate_balanced_risk c1 strong_score moderate_score)
          (Balanced._calculate_balanced_risk c2 strong_score moderate_score)).
Proof.
  split; [exact realistic_risk_monotone |].
  split; [exact conservative_risk_monotone |].
  intros s m c1 c2. apply balanced_label_monotone.
Qed.

(** The theorem at the texts [x] and [# AI-generated] (realistic), [x] and
    [@generated] (conservative), and at the confidences 0.1 and 0.5. *)
Lemma C4_risk_monotone_witness :
  (exists r1 r2,
     Realistic.analyze_content Realistic.init "x" ".py" = Py.Ok r1
     /\ Realistic.analyze_content Realistic.init "# AI-generated" ".py" = Py.Ok r2
     /\ Inside.risk_le (risk_level r1) (risk_level r2))
  /\ (exists r1 r2,
        Conservative.analyze_content Conservative.init "x" ".py" = Py.Ok r1
        /\ Conservative.analyze_content Conservative.init "@generated" ".py"
           = Py.Ok r2
        /\ Inside.risk_le (risk_level r1) (risk_level r2))
  /\ Inside.risk_le (Balanced._calculate_balanced_risk 0.1 0 0)
                    (Balanced._calculate_balanced_risk 0.5 0 0).
Proof.
  destruct C4_risk_monotone_in_confidence as [Hr [Hc Hb]].
  split; [| split].
  - do 2 eexists. split; [vm_compute; reflexivity |].
    split; [vm_compute; reflexivity |].
    eapply (Hr "x" ".py" "# AI-generated" ".py");
      [vm_compute; reflexivity | vm_compute; reflexivity |].
    vm_compute. discriminate.
  - do 2 eexists. split; [vm_compute; reflexivity |].
    split; [vm_compute; reflexivity |].
    eapply (Hc "x" ".py" "@generated" ".py");
      [vm_compute; reflexivity | vm_compute; reflexivity |].
    vm_compute. discriminate.
  - apply Hb. vm_compute. discriminate.
Defined.

(** C4 as stated fails for the balanced detector: a four-line text with
    four strong patterns is labelled HIGH at confidence 413/2400, and a
    four-line text with two strong patterns, a TODO and a getter is labelled
    MEDIUM at the higher confidence 523/2400. *)
Lemma C4_balanced_counterexample :
  exists r_high r_medium,
    Balanced.analyze_content Balanced.init Inside.high_text ".py"
    = Py.Ok r_high
    /\ Balanced.analyze_content Balanced.init Inside.medium_text ".py"
       = Py.Ok r_medium
    /\ confidence_score r_high < confidence_score r_medium
    /\ risk_level r_high = HIGH
    /\ risk_level r_medium = MEDIUM.
Proof.
  do 2 eexists. split; [vm_compute; reflexivity |].
  split; [vm_compute; reflexivity |].
  repeat split; reflexivity.
Qed.

(** ** Empty input *)

Lemma lstrip_whitespace s :
  Inside.whitespace_only s = true -> Str.lstrip s = EmptyString.
Proof.
  induction s as [| c s IH]; simpl; [reflexivity |].
  intros H. apply andb_prop in H as [Hc Hs]. rewrite Hc. apply IH, Hs.
Qed.

Lemma strip_whitespace s :
  Inside.whitespace_only s = true -> Str.strip s = EmptyString.
Proof.
  intros H. unfold Str.strip. rewrite (lstrip_whitespace s H). reflexivity.
Qed.

(** C5. On an empty or whitespace-only text, with any extension,
    [analyze_content] of each detector returns (it does not raise) the empty
    analysis: confidence 0, no analysed lines, risk MINIMAL. *)
Theorem C5_empty_input (content file_extension : string) :
  Inside.whitespace_only content = true ->
  (Balanced.analyze_content Balanced.init content file_extension
   = Py.Ok Balanced._create_empty_analysis
   /\ Inside.is_empty_analysis Balanced._create_empty_analysis)
  /\ (Realistic.analyze_content Realistic.init content file_extension
      = Py.Ok Realistic._create_empty_analysis
      /\ Inside.is_empty_analysis Realistic._create_empty_analysis)
  /\ (Conservative.analyze_content Conservative.init content file_extension
      = Py.Ok Conservative._create_empty_analysis
      /\ Inside.is_empty_analysis Conservative._create_empty_analysis).
Proof.
  intros H. apply strip_whitespace in H.
  unfold Balanced.analyze_content, Realistic.analyze_content,
    Conservative.analyze_content, Inside.is_empty_analysis.
  rewrite H. cbn [Str.truthy negb].
  repeat split; reflexivity.
Qed.

(** The theorem at the empty text and at a text of blanks, a tab and a line
    break. *)
Lemma C5_empty_input_witness :
  Balanced.analyze_content Balanced.init "" ".py"
  = Py.Ok Balanced._create_empty_analysis
  /\ Realistic.analyze_content Realistic.init
       ("  " ++ String (ascii_of_nat 9) "" ++ Inside.NL ++ " ") ".java"
     = Py.Ok Realistic._create_empty_analysis.
Proof.
  split.
  - apply (C5_empty_input "" ".py"). reflexivity.
  - apply (C5_empty_input
             ("  " ++ String (ascii_of_nat 9) "" ++ Inside.NL ++ " ") ".java").
    reflexivity.
Defined.

(** ** More explicit markers *)

Lemma conservative_score_monotone e1 e2 s :
  (e1 <= e2)%nat -> Conservative.score e1 s <= Conservative.score e2 s.
Proof.
  intros H. unfold Conservative.score.
  assert (Hq : Qnat e1 <= Qnat e2) by (unfold Qnat, Qle; simpl; lia).
  pose proof (Qnat_nonneg e1). pose proof (Qnat_nonneg e2).
  pose proof (Qnat_nonneg s).
  destruct (0 <? e1)%nat eqn:E1; destruct (0 <? e2)%nat eqn:E2;
    destruct (0 <? s)%nat;
    try (apply Nat.ltb_lt in E1; apply Nat.ltb_ge in E2; lia);
    qcases; lra.
Qed.

Lemma conservative_confidence content ext r :
  Conservative.analyze_content Conservative.init content ext = Py.Ok r ->
  (0 < total_analyzed_lines r)%Z ->
  confidence_score r
  = Conservative.score
      (Conservative._count_explicit_markers Conservative.init content)
      (Conservative._count_signature_matches Conservative.init content).
Proof.
  intros H Hn.
  destruct (conservative_analyze_shape content ext)
    as [r' [Hr [E0 | [_ [_ [_ [[e [s [-> [-> [Hc _]]]]] _]]]]]]];
    rewrite H in Hr; injection Hr as <-.
  - subst r. simpl in Hn. lia.
  - exact Hc.
Qed.

Lemma base_monotone_in_strong s1 s2 m w c :
  s1 <= s2 ->
  Balanced.base_of Balanced._initialize_weights s1 m w c
  <= Balanced.base_of Balanced._initialize_weights s2 m w c.
Proof.
  intros H. unfold Balanced.base_of. simpl. lra.
Qed.

(** C6, as the code has it. For the conservative detector, of two texts with
    analysed lines and the same number of signature matches, the one with at
    least as many explicit-marker matches has at least the confidence of the
    other. For the balanced detector the weighted base confidence does not
    decrease when the strong score grows and the other scores are fixed. *)
Theorem C6_markers_monotone :
  (forall t1 x1 t2 x2 r1 r2,
     Conservative.analyze_content Conservative.init t1 x1 = Py.Ok r1 ->
     Conservative.analyze_content Conservative.init t2 x2 = Py.Ok r2 ->
     (0 < total_analyzed_lines r1)%Z ->
     (0 < total_analyzed_lines r2)%Z ->
     Conservative._count_signature_matches Conservative.init t1
     = Conservative._count_signature_matches Conservative.init t2 ->
     (Conservative._count_explicit_markers Conservative.init t1
      <= Conservative._count_explicit_markers Conservative.init t2)%nat ->
     confidence_score r1 <= confidence_score r2)
  /\ (forall s1 s2 moderate weak consistency,
        s1 <= s2 ->
        Balanced.base_of (Balanced.weights Balanced.init) s1 moderate weak
                         consistency
        <= Balanced.base_of (Balanced.weights Balanced.init) s2 moderate weak
                            consistency).
Proof.
  split.
  - intros t1 x1 t2 x2 r1 r2 H1 H2 N1 N2 Hs He.
    rewrite (conservative_confidence t1 x1 r1 H1 N1).
    rewrite (conservative_confidence t2 x2 r2 H2 N2).
    rewrite Hs. apply conservative_score_monotone. exact He.
  - intros. apply base_monotone_in_strong. assumption.
Qed.

(** The theorem at the text [@generated], [x] and the same text with a
    second [@generated] line appended: the confidence goes from 0.3 to 0.6. *)
Lemma C6_markers_monotone_witness :
  (exists r1 r2,
     Conservative.analyze_content Conservative.init
       ("@generated" ++ Inside.NL ++ "x") ".py" = Py.Ok r1
     /\ Conservative.analyze_content Conservative.init
          ("@generated" ++ Inside.NL ++ "x" ++ Inside.NL ++ "@generated") ".py"
        = Py.Ok r2
     /\ confidence_score r1 <= confidence_score r2)
  /\ Balanced.base_of (Balanced.weights Balanced.init) 0 0 0 0
     <= Balanced.base_of (Balanced.weights Balanced.init) 1 0 0 0.
Proof.
  destruct C6_markers_monotone as [Hc Hb].
  split.
  - do 2 eexists. split; [vm_compute; reflexivity |].
    split; [vm_compute; reflexivity |].
    eapply (Hc ("@generated" ++ Inside.NL ++ "x") ".py"
               ("@generated" ++ Inside.NL ++ "x" ++ Inside.NL ++ "@generated")
               ".py");
      try (vm_compute; reflexivity).
    vm_compute. lia.
  - apply Hb. vm_compute. discriminate.
Defined.

(** C6 as stated fails for the balanced detector: a thirty-line text with
    explicit markers has confidence 3731/12000; with one more marker line
    appended it has thirty-one lines, the compression for files above thirty
    lines applies, and the confidence drops to 114821/496000. *)
Lemma C6_balanced_counterexample :
  exists r r',
    Balanced.analyze_content Balanced.init Inside.thirty_lines ".py" = Py.Ok r
    /\ Balanced.analyze_content Balanced.init
         (Inside.thirty_lines ++ Inside.marker_line) ".py" = Py.Ok r'
    /\ total_analyzed_lines r = 30%Z
    /\ total_analyzed_lines r' = 31%Z
    /\ confidence_score r' < confidence_score r.
Proof.
  do 2 eexists. split; [vm_compute; reflexivity |].
  split; [vm_compute; reflexivity |].
  repeat split; reflexivity.
Qed.

(** ** Determinism *)


(** ** Aggregation *)

Lemma round_close x :
  - (1 # 2) <= inject_Z (Py.round x) - x <= 1 # 2.
Proof.
  unfold Py.round.
  pose proof (Qfloor_le x) as Hl. pose proof (Qlt_floor x) as Hu.
  rewrite inject_Z_plus in Hu. change (inject_Z 1) with 1 in Hu.
  destruct (Qcompare (x - inject_Z (Qfloor x)) (1 # 2)) eqn:C.
  - apply Qeq_alt in C.
    destruct (Z.even (Qfloor x));
      [| rewrite inject_Z_plus; change (inject_Z 1) with 1]; lra.
  - apply Qlt_alt in C. lra.
  - apply Qgt_alt in C. rewrite inject_Z_plus. change (inject_Z 1) with 1. lra.
Qed.

Lemma round2_close x : - (1 # 200) <= Py.round2 x - x <= 1 # 200.
Proof.
  unfold Py.round2. pose proof (round_close (x * 100)) as H.
  revert H. generalize (inject_Z (Py.round (x * 100))). intros y H.
  assert (E : y / 100 == y * (1 # 100)) by (unfold Qdiv; reflexivity).
  rewrite E. lra.
Qed.

Lemma round2_zero : Py.round2 0 == 0.
Proof. reflexivity. Qed.

Lemma fold_left_add l : forall a,
  fold_left Z.add l a = (a + fold_right Z.add 0 l)%Z.
Proof.
  induction l as [| x l IH]; intros a; simpl; [lia |].
  rewrite IH. lia.
Qed.

Lemma sum_field_total field file_results :
  Metrics.sum_field field file_results = Inside.total field file_results.
Proof.
  unfold Metrics.sum_field, Metrics.values. rewrite fold_left_add.
  induction file_results as [| kv l IH]; simpl; [reflexivity |].
  simpl in IH. rewrite <- IH. lia.
Qed.

Lemma total_nonneg file_results :
  Inside.counts_nonneg file_results ->
  (0 <= Inside.total Metrics.code_lines file_results)%Z.
Proof.
  induction 1 as [| kv l Hkv _ IH]; simpl; lia.
Qed.

Lemma percentage_exact part whole :
  (0 <= whole)%Z ->
  Metrics.percentage part whole = Inside.exact_percentage part whole.
Proof.
  intros H. unfold Metrics.percentage, Inside.exact_percentage.
  destruct (0 <? whole)%Z eqn:E; destruct (whole =? 0)%Z eqn:F;
    try reflexivity.
  - apply Z.ltb_lt in E. apply Z.eqb_eq in F. lia.
  - apply Z.ltb_ge in E. apply Z.eqb_neq in F. lia.
Qed.

Lemma summary_percentage file_results :
  Inside.counts_nonneg file_results ->
  Metrics.copilot_percentage (Metrics.calculate_repository_summary file_results)
  == Py.round2
       (Inside.exact_percentage
          (Inside.total Metrics.estimated_copilot_lines file_results)
          (Inside.total Metrics.code_lines file_results)).
Proof.
  intros H. destruct file_results as [| kv l]; [reflexivity |].
  cbn [Metrics.calculate_repository_summary Metrics.copilot_percentage].
  rewrite !sum_field_total.
  rewrite percentage_exact by (apply total_nonneg; exact H).
  reflexivity.
Qed.

(** C8, as the code has it. Over a finite collection of per-file results
    with non-negative line counts, [calculate_repository_summary] returns as
    [copilot_percentage] the value
    [(sum of estimated copilot lines / sum of code lines) * 100] (0 when the
    code-line sum is 0) rounded to two decimals, hence within 1/200 of it; it
    is 0 when the code-line sum is 0, and the summary of the empty collection
    is the all-zero summary. *)
Theorem C8_repository_percentage (file_results : Metrics.file_results_t) :
  Inside.counts_nonneg file_results ->
  let s := Metrics.calculate_repository_summary file_results in
  let exact :=
    Inside.exact_percentage
      (Inside.total Metrics.estimated_copilot_lines file_results)
      (Inside.total Metrics.code_lines file_results) in
  Metrics.copilot_percentage s == Py.round2 exact
  /\ - (1 # 200) <= Metrics.copilot_percentage s - exact <= 1 # 200
  /\ (Inside.total Metrics.code_lines file_results = 0%Z ->
      Metrics.copilot_percentage s == 0)
  /\ Metrics.calculate_repository_summary []
     = Metrics.Summary 0 0 0 0 0 0 0 0 0 0 (Metrics.Stats 0 0 0 0).
Proof.
  intros H s exact. pose proof (summary_percentage file_results H) as E.
  fold s exact in E.
  split; [exact E |]. split; [| split].
  - rewrite E. apply round2_close.
  - intros Z0. rewrite E. unfold exact, Inside.exact_percentage.
    rewrite Z0. reflexivity.
  - reflexivity.
Qed.

(** The theorem at the aggregation scenario: 9 estimated AI lines of 60 code
    lines give 15 percent. *)
Lemma C8_repository_percentage_witness :
  Metrics.copilot_lines (Metrics.calculate_repository_summary Inside.three_files)
  = 9%Z
  /\ Metrics.copilot_percentage
       (Metrics.calculate_repository_summary Inside.three_files) == 15.
Proof.
  split; [reflexivity |].
  assert (H : Inside.counts_nonneg Inside.three_files).
  { unfold Inside.counts_nonneg, Inside.three_files.
    repeat (apply Forall_cons; [vm_compute; discriminate |]).
    apply Forall_nil. }
  destruct (C8_repository_percentage Inside.three_files H) as [E _].
  rewrite E. reflexivity.
Defined.

(** C8 as stated fails: for one file with one estimated AI line of three
    code lines the percentage returned is 33.33, not 100/3. *)
Lemma C8_rounding_counterexample :
  Metrics.copilot_percentage
    (Metrics.calculate_repository_summary Inside.one_third) == 33.33
  /\ ~ Metrics.copilot_percentage
         (Metrics.calculate_repository_summary Inside.one_third)
       == inject_Z 1 / inject_Z 3 * 100.
Proof.
  split; [reflexivity |].
  vm_compute. discriminate.
Qed.

(** ** Indentation consistency *)
















(** * Further properties of the code *)

(** ** Tier scores of the balanced detector *)

Lemma Qnat_le a b : (a <= b)%nat -> Qnat a <= Qnat b.
Proof. intros H. unfold Qnat, Qle; simpl; lia. Qed.

Lemma ratio_in_unit a b : 0 <= a -> a <= b -> 0 < b -> 0 <= a / b <= 1.
Proof.
  intros Ha Hab Hb. split; [apply Qdiv_nonneg; assumption |].
  apply Qle_shift_div_r; [exact Hb | lra].
Qed.

Lemma strong_fold_invariant (content : string)
  (categories : list (string * list Re.pattern)) :
  forall acc : Z * Z,
    (0 <= fst acc <= snd acc)%Z ->
    let out :=
      fold_left
        (fun acc category =>
           let category_matches :=
             Z.of_nat (count_search (snd category) content) in
           (fst acc + Z.min category_matches 2, snd acc + 2)%Z)
        categories acc in
    (0 <= fst out <= snd out)%Z.
Proof.
  induction categories as [| c cs IH]; intros acc H; simpl; [exact H |].
  apply IH. simpl. lia.
Qed.

Lemma strong_score_range self content :
  0 <= Balanced._analyze_strong_indicators self content <= 1.
Proof.
  unfold Balanced._analyze_strong_indicators.
  pose proof (strong_fold_invariant content (Balanced.compiled_strong self)
                (0, 0)%Z ltac:(simpl; lia)) as H.
  cbv zeta in H.
  destruct (fold_left _ (Balanced.compiled_strong self) (0, 0)%Z) as [t m].
  simpl in H.
  destruct (0 <? m)%Z eqn:E; [| lra].
  apply Z.ltb_lt in E.
  apply ratio_in_unit; unfold Qle, Qlt; simpl; lia.
Qed.

Lemma moderate_loop_invariant categories content :
  forall t n,
    (0 <= n)%Z -> 0 <= t <= inject_Z n ->
    exists t' n',
      Balanced.moderate_loop categories content t n = Py.Ok (t', n')
      /\ (0 <= n')%Z /\ 0 <= t' <= inject_Z n'.
Proof.
  induction categories as [| c cs IH]; intros t n Hn Ht; simpl; [eauto |].
  pose proof (per_lines_pos content 10 ltac:(lra)) as Hd.
  rewrite div_ok by exact Hd. cbn [Py.bind].
  pose proof (Qdiv_nonneg _ _
    (Qnat_nonneg (count_findall (snd c) content)) Hd) as Hq.
  apply IH; [lia |].
  rewrite inject_Z_plus. change (inject_Z 1) with 1.
  qcases; lra.
Qed.

Lemma moderate_score_range self content :
  exists q, Balanced._analyze_moderate_indicators self content = Py.Ok q
            /\ 0 <= q <= 1.
Proof.
  unfold Balanced._analyze_moderate_indicators.
  destruct (moderate_loop_invariant (Balanced.compiled_moderate self) content
              0 0%Z ltac:(lia) (conj (Qle_refl 0) (Qle_refl 0)))
    as [t [n [-> [Hn Ht]]]].
  cbn [Py.bind]. eexists. split; [reflexivity |].
  destruct (0 <? n)%Z eqn:E; [| lra].
  apply Z.ltb_lt in E.
  apply ratio_in_unit; try lra. unfold Qlt; simpl; lia.
Qed.

Lemma per_line_score_range (matches : nat) content k :
  0 < k ->
  exists q, Py.div (Qnat matches) (Qnat (Balanced.line_count content) / k)
            = Py.Ok q
            /\ 0 <= Qmin q 1 <= 1.
Proof.
  intros Hk. pose proof (per_lines_pos content k Hk) as Hd.
  rewrite div_ok by exact Hd. eexists. split; [reflexivity |].
  pose proof (Qdiv_nonneg _ _ (Qnat_nonneg matches) Hd).
  qcases; lra.
Qed.

Lemma weak_score_range self content :
  exists q, Balanced._analyze_weak_indicators self content = Py.Ok q
            /\ 0 <= q <= 1.
Proof.
  unfold Balanced._analyze_weak_indicators.
  destruct (per_line_score_range
              (count_findall (Balanced.compiled_weak self) content) content 20
              ltac:(lra)) as [q [-> H]].
  cbn [Py.bind]. eauto.
Qed.

Lemma human_score_range self content :
  exists q, Balanced._analyze_human_patterns self content = Py.Ok q
            /\ 0 <= q <= 1.
Proof.
  unfold Balanced._analyze_human_patterns.
  destruct (per_line_score_range
              (count_findall (Balanced.compiled_human self) content) content 30
              ltac:(lra)) as [q [-> H]].
  cbn [Py.bind]. eauto.
Qed.

(** X1. For every detector instance and every text, the four tier scores of
    the balanced detector (strong, moderate, weak, human) are computed
    without raising, the line count that divides them being at least 1, and
    each lies in [0,1]. *)
Theorem X1_balanced_tier_scores (self : Balanced.detector) (content : string) :
  0 <= Balanced._analyze_strong_indicators self content <= 1
  /\ (exists q, Balanced._analyze_moderate_indicators self content = Py.Ok q
                /\ 0 <= q <= 1)
  /\ (exists q, Balanced._analyze_weak_indicators self content = Py.Ok q
                /\ 0 <= q <= 1)
  /\ (exists q, Balanced._analyze_human_patterns self content = Py.Ok q
                /\ 0 <= q <= 1).
Proof.
  split; [apply strong_score_range |].
  split; [apply moderate_score_range |].
  split; [apply weak_score_range | apply human_score_range].
Qed.

(** ** Consistency score of the balanced detector *)

Lemma count_if_le {A : Type} (p : A -> bool) xs :
  (count_if p xs <= List.length xs)%nat.
Proof. unfold count_if. apply filter_length_le. Qed.

Lemma share_in_unit (a b total : nat) :
  (a <= total)%nat -> (b <= total)%nat -> (0 < total)%nat ->
  0 <= Qnat (Nat.max a b) / Qnat total <= 1.
Proof.
  intros Ha Hb Ht. apply ratio_in_unit.
  - apply Qnat_nonneg.
  - apply Qnat_le. lia.
  - apply Qnat_pos. exact Ht.
Qed.

Lemma naming_consistency_range names :
  0 <= Balanced._calculate_naming_consistency names <= 1.
Proof.
  unfold Balanced._calculate_naming_consistency.
  destruct names as [| n ns]; [lra |].
  set (l := n :: ns).
  assert (Hl : (0 < List.length l)%nat) by (simpl; lia).
  destruct (0 <? List.length l)%nat; [| lra].
  apply share_in_unit; try exact Hl; apply count_if_le.
Qed.

Lemma comment_consistency_range comments :
  0 <= Balanced._calculate_comment_consistency comments <= 1.
Proof.
  unfold Balanced._calculate_comment_consistency.
  destruct comments as [| c cs]; [lra |].
  set (l := c :: cs).
  assert (Hl : (0 < List.length l)%nat) by (simpl; lia).
  destruct (0 <? List.length l)%nat; [| lra].
  apply share_in_unit; try exact Hl; apply count_if_le.
Qed.

Lemma indentation_consistency_range indentations :
  exists q, Balanced._calculate_indentation_consistency indentations = Py.Ok q
            /\ 0 <= q <= 1.
Proof.
  unfold Balanced._calculate_indentation_consistency.
  destruct (List.length indentations <=? 1)%nat eqn:L.
  { exists 1. split; [reflexivity | lra]. }
  destruct (_ && _).
  { exists 1. split; [reflexivity | lra]. }
  apply Nat.leb_gt in L.
  assert (E : (1 <? List.length indentations)%nat = true)
    by (apply Nat.ltb_lt; lia).
  rewrite E.
  destruct (variance_ok (map Qnat indentations)) as [v [-> Hv]];
    [rewrite length_map; lia |].
  cbn [Py.bind].
  set (mx := match indentations with [] => 1%nat | _ => _ end).
  pose proof (Qnat_nonneg mx) as Hm.
  assert (Hd : 0 < Qnat mx + 1) by lra.
  rewrite div_ok by exact Hd. cbn [Py.bind].
  pose proof (Qdiv_nonneg _ _ Hv Hd).
  eexists. split; [reflexivity |]. qcases; lra.
Qed.

(** X2. For every text and list of lines, [_analyze_consistency] returns
    without raising a score in [0,1]; its three parts (indentation, naming
    and comment consistency) each lie in [0,1], whatever names and comments
    the text has. *)
Theorem X2_balanced_consistency_score (content : string) (lines : list string) :
  (exists q, Balanced._analyze_consistency content lines = Py.Ok q
             /\ 0 <= q <= 1)
  /\ (forall indentations,
        exists q,
          Balanced._calculate_indentation_consistency indentations = Py.Ok q
          /\ 0 <= q <= 1)
  /\ (forall names, 0 <= Balanced._calculate_naming_consistency names <= 1)
  /\ (forall comments,
        0 <= Balanced._calculate_comment_consistency comments <= 1).
Proof.
  split; [| split; [exact indentation_consistency_range |
            split; [exact naming_consistency_range
                   | exact comment_consistency_range]]].
  unfold Balanced._analyze_consistency.
  destruct (indentation_consistency_range
              (map Balanced.indent_width (filter Balanced.nonblank lines)))
    as [i [-> Hi]].
  cbn [Py.bind]. eexists. split; [reflexivity |].
  pose proof (naming_consistency_range
    (Re.findall Balanced.function_name_re content
     ++ Re.findall Balanced.variable_name_re content)) as Hn.
  pose proof (comment_consistency_range
    (Re.findall Balanced.comment_re content)) as Hc.
  revert Hn Hc.
  generalize (Balanced._calculate_naming_consistency
    (Re.findall Balanced.function_name_re content
     ++ Re.findall Balanced.variable_name_re content)).
  generalize (Balanced._calculate_comment_consistency
    (Re.findall Balanced.comment_re content)).
  intros c n Hn Hc.
  split.
  - apply Qdiv_nonneg; lra.
  - apply Qle_shift_div_r; lra.
Qed.

(** ** Reachable confidences of the balanced detector *)

Lemma balanced_raw_unit content :
  exists c, Inside.balanced_raw Balanced.init content = Py.Ok c
            /\ 0 <= c <= 1.
Proof.
  unfold Inside.balanced_raw.
  pose proof (strong_score_range Balanced.init content) as Hs.
  destruct (moderate_score_range Balanced.init content) as [mo [-> Hmo]].
  destruct (weak_score_range Balanced.init content) as [we [-> Hwe]].
  assert (Hco : exists q,
             Balanced._analyze_consistency content
               (filter Balanced.nonblank (Str.split_nl content)) = Py.Ok q
             /\ 0 <= q <= 1).
  { unfold Balanced._analyze_consistency.
    destruct (indentation_consistency_range
                (map Balanced.indent_width
                   (filter Balanced.nonblank
                      (filter Balanced.nonblank (Str.split_nl content)))))
      as [i [-> Hi]].
    cbn [Py.bind]. eexists. split; [reflexivity |].
    pose proof (naming_consistency_range
      (Re.findall Balanced.function_name_re content
       ++ Re.findall Balanced.variable_name_re content)).
    pose proof (comment_consistency_range
      (Re.findall Balanced.comment_re content)).
    split; [apply Qdiv_nonneg; lra | apply Qle_shift_div_r; lra]. }
  destruct Hco as [co [-> Hco]].
  destruct (human_score_range Balanced.init content) as [hu [-> Hhu]].
  cbn [Py.bind]. eexists. split; [reflexivity |].
  unfold Balanced.base_of, Balanced.penalty_of.
  cbn [Balanced.weights Balanced.init Balanced._initialize_weights
       Balanced.strong_indicators Balanced.moderate_indicators
       Balanced.weak_indicators Balanced.consistency_bonus
       Balanced.human_penalty].
  revert Hs. generalize (Balanced._analyze_strong_indicators Balanced.init content).
  intros s Hs. qcases; lra.
Qed.

Lemma balanced_thresholds_tight c n :
  0 <= c <= 1 ->
  Balanced._apply_realistic_thresholds c n <= 0.65
  /\ ((n < 20)%Z -> Balanced._apply_realistic_thresholds c n <= 0.5)
  /\ ((30 < n)%Z -> Balanced._apply_realistic_thresholds c n <= 0.4).
Proof.
  intros Hc.
  unfold Balanced._apply_realistic_thresholds, Balanced.post_floor,
    Balanced.pre_floor.
  destruct (n <? 20)%Z eqn:E20; [| destruct (n <? 50)%Z eqn:E50];
    destruct (30 <? n)%Z eqn:E30;
    try apply Z.ltb_lt in E20; try apply Z.ltb_ge in E20;
    try apply Z.ltb_lt in E30; try apply Z.ltb_ge in E30;
    try apply Z.ltb_lt in E50; try apply Z.ltb_ge in E50;
    rewrite ?andb_true_r, ?andb_false_r;
    (split; [| split]); intros; try lia; qcases; lra.
Qed.

(** X3. The confidence the balanced detector returns is at most 0.65 for
    every text: the cap of 0.75 is never reached. It is at most 0.5 when
    fewer than 20 lines are analysed and at most 0.4 when more than 30
    are. *)
Theorem X3_balanced_confidence_reachable (content file_extension : string) :
  exists r,
    Balanced.analyze_content Balanced.init content file_extension = Py.Ok r
    /\ confidence_score r <= 0.65
    /\ ((total_analyzed_lines r < 20)%Z -> confidence_score r <= 0.5)
    /\ ((30 < total_analyzed_lines r)%Z -> confidence_score r <= 0.4).
Proof.
  destruct (balanced_raw_unit content) as [c [Hc Hc01]].
  destruct (balanced_analyze_shape Balanced.init content file_extension)
    as [c' [Hc' [_ [r [Hr [E0 | [_ [_ [Ht [Hf _]]]]]]]]]];
    exists r; (split; [exact Hr |]).
  - subst r. simpl. repeat split; intros; lra.
  - rewrite Hc in Hc'. injection Hc' as <-.
    rewrite Hf, Ht.
    apply balanced_thresholds_tight. exact Hc01.
Qed.

(** The theorem at a one-line text and at a text of thirty-one lines. *)
Lemma X3_balanced_confidence_witness :
  (exists r,
     Balanced.analyze_content Balanced.init "# AI-generated" ".py" = Py.Ok r
     /\ confidence_score r <= 0.5)
  /\ (exists r,
        Balanced.analyze_content Balanced.init
          (Inside.thirty_lines ++ Inside.marker_line) ".py" = Py.Ok r
        /\ confidence_score r <= 0.4).
Proof.
  split.
  - assert (E : exists r0,
               Balanced.analyze_content Balanced.init "# AI-generated" ".py"
               = Py.Ok r0
               /\ (total_analyzed_lines r0 < 20)%Z)
      by (eexists; split; [vm_compute; reflexivity | vm_compute; reflexivity]).
    destruct E as [r0 [Hr0 Hn]].
    destruct (X3_balanced_confidence_reachable "# AI-generated" ".py")
      as [r [Hr [_ [H20 _]]]].
    exists r. split; [exact Hr |]. apply H20.
    rewrite Hr0 in Hr. injection Hr as <-. exact Hn.
  - assert (E : exists r0,
               Balanced.analyze_content Balanced.init
                 (Inside.thirty_lines ++ Inside.marker_line) ".py" = Py.Ok r0
               /\ (30 < total_analyzed_lines r0)%Z)
      by (eexists; split; [vm_compute; reflexivity | vm_compute; reflexivity]).
    destruct E as [r0 [Hr0 Hn]].
    destruct (X3_balanced_confidence_reachable
                (Inside.thirty_lines ++ Inside.marker_line) ".py")
      as [r [Hr [_ [_ H30]]]].
    exists r. split; [exact Hr |]. apply H30.
    rewrite Hr0 in Hr. injection Hr as <-. exact Hn.
Defined.

(** ** The HIGH label of the balanced detector *)

(** The whole record [analyze_content] returns on a text with analysed
    lines. *)
Lemma balanced_analyze_record content ext :
  exists r,
    Balanced.analyze_content Balanced.init content ext = Py.Ok r
    /\ (r = Balanced._create_empty_analysis
        \/ exists strong moderate,
             0 <= strong <= 1
             /\ confidence_score r <= 0.65
             /\ risk_level r
                = Balanced._calculate_balanced_risk (confidence_score r)
                    strong moderate
             /\ dict_get (detailed_scores r) "strong_indicators" 0 = strong
             /\ dict_get (indicators r) "strong_ai_patterns" false
                = Qgtb strong 0.3).
Proof.
  destruct (balanced_raw_unit content) as [c [Hc Hc01]].
  revert Hc. unfold Inside.balanced_raw, Balanced.analyze_content.
  destruct (negb (Str.truthy (Str.strip content))).
  { intros _. eexists. split; [reflexivity | left; reflexivity]. }
  destruct (_ =? 0)%Z.
  { intros _. eexists. split; [reflexivity | left; reflexivity]. }
  destruct (moderate_ok Balanced.init content) as [mo ->].
  destruct (weak_ok Balanced.init content) as [we ->].
  destruct (consistency_ok content
              (filter Balanced.nonblank (Str.split_nl content))) as [co ->].
  destruct (human_ok Balanced.init content) as [hu ->].
  cbn [Py.bind]. intros Hc. injection Hc as Hc.
  eexists. split; [reflexivity |]. right.
  exists (Balanced._analyze_strong_indicators Balanced.init content), mo.
  cbn [confidence_score risk_level detailed_scores indicators].
  split; [apply strong_score_range |].
  subst c.
  split; [apply balanced_thresholds_tight; exact Hc01 |].
  repeat split; reflexivity.
Qed.

(** X4. The balanced detector labels a text HIGH exactly when its strong
    score exceeds 0.5: the other way to HIGH in [_calculate_balanced_risk],
    a confidence above 0.7, is never taken because the confidence is at most
    0.65. A HIGH result therefore always has the [strong_ai_patterns]
    indicator set. *)
Theorem X4_balanced_high_iff_strong (content file_extension : string) :
  exists r,
    Balanced.analyze_content Balanced.init content file_extension = Py.Ok r
    /\ (risk_level r = HIGH
        <-> 0.5 < dict_get (detailed_scores r) "strong_indicators" 0)
    /\ (risk_level r = HIGH
        -> dict_get (indicators r) "strong_ai_patterns" false = true).
Proof.
  destruct (balanced_analyze_record content file_extension)
    as [r [Hr [E0 | [s [m [Hs [Hc [Hk [Hd Hi]]]]]]]]];
    exists r; (split; [exact Hr |]).
  - subst r. simpl. split; [split |]; intros H; discriminate.
  - rewrite Hd, Hi, Hk. unfold Balanced._calculate_balanced_risk.
    assert (G : Qgtb (confidence_score r) 0.7 = false)
      by (apply Qgtb_false; lra).
    rewrite G, orb_false_r.
    destruct (Qgtb s 0.5) eqn:E.
    + apply Qgtb_true in E. split; [split; [intros _; exact E | reflexivity] |].
      intros _. apply Qgtb_true. lra.
    + apply Qgtb_false in E.
      assert (N : forall x : risk,
                 (if Qgtb s 0.2 || Qgtb m 0.5 || Qgtb (confidence_score r) 0.4
                  then MEDIUM else x) = HIGH -> x = HIGH).
      { intros x. destruct (_ || _); [discriminate | auto]. }
      split; [split |]; intros H.
      * apply N in H. destruct (_ || _) in H; discriminate.
      * lra.
      * apply N in H. destruct (_ || _) in H; discriminate.
Qed.

(** The theorem at the four-line text with four strong patterns. *)
Lemma X4_balanced_high_witness :
  exists r,
    Balanced.analyze_content Balanced.init Inside.high_text ".py" = Py.Ok r
    /\ risk_level r = HIGH
    /\ dict_get (indicators r) "strong_ai_patterns" false = true.
Proof.
  assert (E : exists r0,
             Balanced.analyze_content Balanced.init Inside.high_text ".py"
             = Py.Ok r0
             /\ risk_level r0 = HIGH)
    by (eexists; split; [vm_compute; reflexivity | vm_compute; reflexivity]).
  destruct E as [r0 [Hr0 Hh]].
  destruct (X4_balanced_high_iff_strong Inside.high_text ".py")
    as [r [Hr [_ Hi]]].
  exists r. split; [exact Hr |].
  assert (H : risk_level r = HIGH)
    by (rewrite Hr0 in Hr; injection Hr as <-; exact Hh).
  split; [exact H | exact (Hi H)].
Defined.

(** ** The realistic detector and its explicit markers *)

Lemma realistic_raw_explicit content e c :
  Inside.realistic_raw Realistic.init content = Py.Ok (e, c) ->
  e = Realistic._analyze_explicit_markers Realistic.init content.
Proof.
  unfold Inside.realistic_raw.
  destruct (if Qeq_bool _ 0 then _ else _) as [s | x]; cbn [Py.bind];
    [| discriminate].
  intros H. injection H as <- _. reflexivity.
Qed.

Lemma realistic_unmarked_floor c n :
  0 <= c <= 0.01 ->
  Realistic._apply_realistic_thresholds c n false = 0.
Proof.
  intros H. unfold Realistic._apply_realistic_thresholds.
  apply realistic_floor_zero. unfold Realistic.pre_floor.
  destruct (n <? 30)%Z; [| destruct (n <? 100)%Z]; qcases; lra.
Qed.

(** X5. When no explicit-marker pattern matches a text, the realistic
    detector returns confidence 0, estimate 0 and the label MINIMAL, whatever
    subtle patterns the text has: their weighted score is at most 0.01, below
    the noise threshold of 0.02. *)
Theorem X5_realistic_unmarked_is_zero (content file_extension : string) :
  count_findall (Realistic.compiled_explicit Realistic.init) content = 0%nat ->
  exists r,
    Realistic.analyze_content Realistic.init content file_extension = Py.Ok r
    /\ confidence_score r = 0
    /\ estimated_lines r = 0%Z
    /\ risk_level r = MINIMAL.
Proof.
  intros Hk.
  destruct (realistic_analyze_shape content file_extension)
    as [e [c [Hraw [Hc [r [Hr [E0 | [_ [_ [Hf [He Hl]]]]]]]]]]];
    exists r; (split; [exact Hr |]).
  - subst r. repeat split; reflexivity.
  - apply realistic_raw_explicit in Hraw.
    unfold Realistic._analyze_explicit_markers in Hraw. rewrite Hk in Hraw.
    assert (G : Qgtb e 0 = false) by (subst e; reflexivity).
    destruct Hc as [[G' _] | [_ Hc]]; [congruence |].
    rewrite G in *.
    assert (Z0 : confidence_score r = 0)
      by (rewrite Hf; apply realistic_unmarked_floor; exact Hc).
    rewrite He, Hl, Z0. repeat split; reflexivity.
Qed.

(** A text of twelve code lines with type-annotated functions, a subtle
    pattern, and no marker. *)
Lemma X5_realistic_unmarked_witness :
  exists r,
    Realistic.analyze_content Realistic.init
      (Inside.repeat_text 12 ("def f(x) -> Int:" ++ Inside.NL)) ".py"
    = Py.Ok r
    /\ 0 < dict_get (detailed_scores r) "subtle_patterns" 0
    /\ confidence_score r = 0.
Proof.
  destruct (X5_realistic_unmarked_is_zero
              (Inside.repeat_text 12 ("def f(x) -> Int:" ++ Inside.NL)) ".py")
    as [r [Hr [Hc _]]]; [vm_compute; reflexivity |].
  exists r. split; [exact Hr |]. split; [| exact Hc].
  vm_compute in Hr. injection Hr as <-. reflexivity.
Defined.

Lemma realistic_marked_score k :
  (1 <= k)%nat ->
  let e := Qmin (Qnat k * 0.3) 1 in
  Qeq_bool e 0 = false /\ Qgtb e 0 = true /\ 0.3 <= e <= 1.
Proof.
  intros Hk e. pose proof (Qnat_ge_1 k Hk) as H1.
  assert (He : 0.3 <= e <= 1) by (unfold e; qcases; lra).
  split; [| split; [apply Qgtb_true; lra | exact He]].
  destruct (Qeq_bool e 0) eqn:E; [| reflexivity].
  apply Qeq_bool_iff in E. lra.
Qed.

(** X6. On a text that is not blank, the confidence and the label of the
    realistic detector are decided by the number k of explicit-marker
    matches alone: the confidence is 0.8 * min(0.3 k, 1), that is 0, 0.24,
    0.48, 0.72 or 0.8, and the label is MINIMAL for no match, LOW for one,
    HIGH for two and VERY HIGH for three or more; MEDIUM is never
    returned. *)
Theorem X6_realistic_by_marker_count (content file_extension : string) :
  Inside.is_blank content = false ->
  let k := count_findall (Realistic.compiled_explicit Realistic.init) content in
  exists r,
    Realistic.analyze_content Realistic.init content file_extension = Py.Ok r
    /\ confidence_score r == Qmin (Qnat k * 0.3) 1 * 0.8
    /\ risk_level r
       = match k with
         | 0%nat => MINIMAL
         | 1%nat => LOW
         | 2%nat => HIGH
         | _ => VERY_HIGH
         end.
Proof.
  intros B k. unfold Inside.is_blank in B.
  unfold Realistic.analyze_content. rewrite B.
  unfold Realistic._analyze_explicit_markers. fold k.
  destruct k as [| k'] eqn:K.
  - change (Qeq_bool (Qmin (Qnat 0 * 0.3) 1) 0) with true. cbv iota.
    destruct (subtle_ok Realistic.init content
                (List.length (filter Realistic.is_code (Str.split_nl content))))
      as [s [-> Hs]].
    cbn [Py.bind]. eexists. split; [reflexivity |].
    cbn [confidence_score risk_level].
    change (Qgtb (Qmin (Qnat 0 * 0.3) 1) 0) with false.
    rewrite realistic_unmarked_floor.
    + split; reflexivity.
    + cbn [Realistic.weights Realistic.init Realistic._initialize_weights
           Realistic.w_explicit_markers Realistic.w_subtle_patterns].
      change (Qmin (Qnat 0 * 0.3) 1) with (0 # 10). lra.
  - destruct (realistic_marked_score (S k') ltac:(lia)) as [E0 [G He]].
    cbv zeta in E0, G, He. rewrite E0. cbn [Py.bind].
    eexists. split; [reflexivity |].
    cbn [confidence_score risk_level]. rewrite G.
    unfold Realistic._apply_realistic_thresholds,
      Realistic._calculate_risk_level.
    cbn [Realistic.weights Realistic.init Realistic._initialize_weights
         Realistic.w_explicit_markers Realistic.w_subtle_patterns andb].
    destruct k' as [| [| k'']].
    + split; reflexivity.
    + split; reflexivity.
    + pose proof (Qnat_ge_1 (S k'') ltac:(lia)) as H1.
      pose proof (Qnat_S (S (S k''))) as H3.
      pose proof (Qnat_S (S k'')) as H2.
      revert He H2 H3.
      generalize (Qnat (S (S (S k'')))). generalize (Qnat (S (S k''))).
      intros a b He H2 H3.
      split.
      * qcases; lra.
      * qcases; try reflexivity; exfalso; lra.
Qed.

(** The theorem at a text with two marker comments. *)
Lemma X6_realistic_by_marker_count_witness :
  exists r,
    Realistic.analyze_content Realistic.init
      ("# AI-generated" ++ Inside.NL ++ "x" ++ Inside.NL ++ "# generated by copilot")
      ".py" = Py.Ok r
    /\ confidence_score r == 0.48
    /\ risk_level r = HIGH.
Proof.
  destruct (X6_realistic_by_marker_count
              ("# AI-generated" ++ Inside.NL ++ "x" ++ Inside.NL
               ++ "# generated by copilot") ".py")
    as [r [Hr [Hc Hl]]]; [reflexivity |].
  exists r. split; [exact Hr |].
  split; [rewrite Hc; vm_compute; reflexivity | rewrite Hl; vm_compute; reflexivity].
Defined.

(** ** The conservative detector: estimate, label and flags *)

(** The record [analyze_content] returns on a text with analysed lines. *)
Lemma conservative_analyze_record content ext r :
  Conservative.analyze_content Conservative.init content ext = Py.Ok r ->
  (0 < total_analyzed_lines r)%Z ->
  let e := Conservative._count_explicit_markers Conservative.init content in
  let s := Conservative._count_signature_matches Conservative.init content in
  confidence_score r = Conservative.score e s
  /\ risk_level r
     = Conservative._calculate_conservative_risk (Conservative.score e s) e s
  /\ estimated_lines r
     = (if Qgtb (Conservative.score e s) 0.7
        then Py.int (inject_Z (total_analyzed_lines r)
                     * Conservative.score e s * 0.5)
        else 0%Z)
  /\ dict_get (indicators r) "high_confidence_ai" false
     = Qgtb (Conservative.score e s) 0.8.
Proof.
  unfold Conservative.analyze_content.
  destruct (negb (Str.truthy (Str.strip content))).
  { intros H. injection H as <-. simpl. lia. }
  destruct (_ =? 0)%Z.
  { intros H. injection H as <-. simpl. lia. }
  intros H _. injection H as <-.
  cbn [confidence_score risk_level estimated_lines total_analyzed_lines
       indicators].
  repeat split; reflexivity.
Qed.

Lemma int_below x : 0 <= x -> inject_Z (Py.int x) <= x.
Proof.
  intros H. rewrite (int_floor x H). apply Qfloor_le.
Qed.

Lemma conservative_estimate_half (n : Z) (c : Q) :
  (0 <= n)%Z -> 0 <= c <= 0.95 ->
  (2 * Py.int (inject_Z n * c * 0.5) <= n)%Z.
Proof.
  intros Hn Hc.
  pose proof (scaled_bounds n c Hn ltac:(lra)) as Hb.
  pose proof (int_below (inject_Z n * c * 0.5) ltac:(lra)) as Hi.
  rewrite Zle_Qle, inject_Z_mult. change (inject_Z 2) with 2.
  lra.
Qed.

Lemma conservative_high_confidence_needs_two e s :
  0.7 < Conservative.score e s -> (2 <= e)%nat.
Proof.
  unfold Conservative.score. pose proof (Qnat_nonneg s).
  destruct e as [| [| e]]; [| | lia]; destruct (0 <? s)%nat;
    cbn [Nat.ltb Nat.leb]; intros H'; exfalso; revert H';
    change (Qnat 1) with 1; qcases; lra.
Qed.

(** X7. The conservative detector never estimates more than half of the
    analysed lines as AI, and it estimates any line at all only when the
    confidence exceeds 0.7, which takes at least two explicit-marker
    matches. *)
Theorem X7_conservative_estimate (content file_extension : string) :
  exists r,
    Conservative.analyze_content Conservative.init content file_extension
    = Py.Ok r
    /\ (2 * estimated_lines r <= total_analyzed_lines r)%Z
    /\ ((0 < estimated_lines r)%Z ->
        0.7 < confidence_score r
        /\ (2 <= Conservative._count_explicit_markers Conservative.init
                   content)%nat).
Proof.
  destruct (conservative_in_range content file_extension) as [r [Hr Hrange]].
  exists r. split; [exact Hr |].
  destruct (Z.eq_dec (total_analyzed_lines r) 0) as [Z0 | NZ].
  - destruct Hrange as [_ He]. split; intros; lia.
  - assert (Hn : (0 < total_analyzed_lines r)%Z)
      by (destruct Hrange as [_ He]; lia).
    destruct (conservative_analyze_record content file_extension r Hr Hn)
      as [Hc [_ [He _]]].
    pose proof (conservative_score_range
      (Conservative._count_explicit_markers Conservative.init content)
      (Conservative._count_signature_matches Conservative.init content)) as Hs.
    rewrite He, Hc.
    destruct (Qgtb _ 0.7) eqn:G.
    + apply Qgtb_true in G. split.
      * apply conservative_estimate_half; [lia | exact Hs].
      * intros _. split; [exact G |].
        apply (conservative_high_confidence_needs_two _ _ G).
    + split; [lia | intros; lia].
Qed.

(** The theorem at a five-line text with three marker lines: the confidence
    is 0.9 and two of the five lines are estimated. *)
Lemma X7_conservative_estimate_witness :
  exists r,
    Conservative.analyze_content Conservative.init
      (Inside.repeat_text 3 ("@generated" ++ Inside.NL) ++ "a" ++ Inside.NL ++ "b")
      ".py" = Py.Ok r
    /\ estimated_lines r = 2%Z
    /\ 0.7 < confidence_score r.
Proof.
  destruct (X7_conservative_estimate
              (Inside.repeat_text 3 ("@generated" ++ Inside.NL) ++ "a"
               ++ Inside.NL ++ "b") ".py")
    as [r [Hr [_ H]]].
  exists r. split; [exact Hr |].
  assert (E : estimated_lines r = 2%Z)
    by (vm_compute in Hr; injection Hr as <-; reflexivity).
  split; [exact E |]. apply H. rewrite E. reflexivity.
Defined.

Lemma conservative_by_counts e s :
  let c := Conservative.score e s in
  (c == 0 <-> e = 0%nat /\ s = 0%nat)
  /\ (Conservative._calculate_conservative_risk c e s = HIGH <-> (3 <= e)%nat)
  /\ (Conservative._calculate_conservative_risk c e s = MINIMAL
      <-> e = 0%nat /\ s = 0%nat)
  /\ (Qgtb c 0.8 = true <-> (3 <= e)%nat).
Proof.
  cbv zeta.
  unfold Conservative._calculate_conservative_risk, Conservative.score.
  destruct e as [| [| [| e]]]; destruct s as [| s];
    cbn [Nat.ltb Nat.leb orb];
    repeat match goal with
    | |- context [Qnat (S ?k)] =>
        let H := fresh "H" in
        pose proof (Qnat_S k) as H; revert H; generalize (Qnat (S k)); intros
    end;
    repeat match goal with
    | H : context [Qnat (S ?k)] |- _ => rewrite (Qnat_S k) in H
    end;
    try (pose proof (Qnat_nonneg e)); try (pose proof (Qnat_nonneg s));
    change (Qnat 0) with 0 in *;
    qcases;
    repeat split; intros;
    try reflexivity; try discriminate; try lia; try lra;
    try (exfalso; lra);
    try match goal with H : _ /\ _ |- _ => destruct H; discriminate end.
Qed.

(** X8. On a text with analysed lines the conservative detector returns
    confidence 0 exactly when neither an explicit marker nor a signature
    matches, the label MINIMAL in exactly that case, and the label HIGH
    exactly when three or more explicit markers match; the
    [high_confidence_ai] flag is set exactly for the HIGH results. *)
Theorem X8_conservative_by_counts (content file_extension : string) (r : result) :
  Conservative.analyze_content Conservative.init content file_extension
  = Py.Ok r ->
  (0 < total_analyzed_lines r)%Z ->
  let e := Conservative._count_explicit_markers Conservative.init content in
  let s := Conservative._count_signature_matches Conservative.init content in
  (confidence_score r == 0 <-> e = 0%nat /\ s = 0%nat)
  /\ (risk_level r = MINIMAL <-> e = 0%nat /\ s = 0%nat)
  /\ (risk_level r = HIGH <-> (3 <= e)%nat)
  /\ (dict_get (indicators r) "high_confidence_ai" false = true
      <-> risk_level r = HIGH).
Proof.
  intros Hr Hn e s.
  destruct (conservative_analyze_record content file_extension r Hr Hn)
    as [Hc [Hk [_ Hi]]].
  fold e s in Hc, Hk, Hi.
  destruct (conservative_by_counts e s) as [Z0 [HH [HM HF]]].
  cbv zeta in Z0, HH, HM, HF.
  rewrite Hc, Hk, Hi.
  split; [exact Z0 |]. split; [exact HM |]. split; [exact HH |].
  rewrite HF, HH. reflexivity.
Qed.

(** The theorem at the five-line text with three marker lines. *)
Lemma X8_conservative_by_counts_witness :
  exists r,
    Conservative.analyze_content Conservative.init
      (Inside.repeat_text 3 ("@generated" ++ Inside.NL) ++ "a" ++ Inside.NL ++ "b")
      ".py" = Py.Ok r
    /\ risk_level r = HIGH
    /\ dict_get (indicators r) "high_confidence_ai" false = true.
Proof.
  assert (E : exists r,
             Conservative.analyze_content Conservative.init
               (Inside.repeat_text 3 ("@generated" ++ Inside.NL) ++ "a"
                ++ Inside.NL ++ "b") ".py" = Py.Ok r
             /\ (0 < total_analyzed_lines r)%Z).
  { eexists. split; [vm_compute; reflexivity | vm_compute; reflexivity]. }
  assert (He : (3 <= Conservative._count_explicit_markers Conservative.init
                      (Inside.repeat_text 3 ("@generated" ++ Inside.NL) ++ "a"
                       ++ Inside.NL ++ "b"))%nat)
    by (vm_compute; lia).
  destruct E as [r [Hr Hn]].
  exists r. split; [exact Hr |].
  pose proof (X8_conservative_by_counts _ _ r Hr Hn) as H.
  cbv zeta in H. destruct H as [_ [_ [HH HF]]].
  assert (K : risk_level r = HIGH) by (apply HH; exact He).
  split; [exact K | apply HF; exact K].
Defined.

(** ** File statistics *)

Lemma classify_invariant lines :
  forall code comment blank : Z,
    let '(code', comment', blank') :=
      fold_left CodeAnalyzer.classify lines (code, comment, blank) in
    (code' + comment' + blank'
     = code + comment + blank + Z.of_nat (List.length lines))%Z
    /\ (code' + comment'
        = code + comment
          + Z.of_nat (List.length (filter Balanced.nonblank lines)))%Z
    /\ (code <= code')%Z /\ (comment <= comment')%Z /\ (blank <= blank')%Z.
Proof.
  induction lines as [| l ls IH]; intros code comment blank.
  - simpl. lia.
  - cbn [fold_left]. unfold CodeAnalyzer.classify at 2.
    cbn [filter]. unfold Balanced.nonblank at 1.
    destruct (Str.truthy (Str.strip l)); cbn [negb].
    + destruct (CodeAnalyzer.is_comment (Str.strip l)).
      * specialize (IH code (comment + 1)%Z blank).
        destruct (fold_left _ ls _) as [[c' m'] b'].
        cbn [List.length]. lia.
      * specialize (IH (code + 1)%Z comment blank).
        destruct (fold_left _ ls _) as [[c' m'] b'].
        cbn [List.length]. lia.
    + specialize (IH code comment (blank + 1)%Z).
      destruct (fold_left _ ls _) as [[c' m'] b'].
      cbn [List.length]. lia.
Qed.

(** X9. [_get_file_stats] classifies every line of the text exactly once:
    the code, comment and blank counts are non-negative and add up to
    [total_lines], which is at least 1 even for the empty text. *)
Theorem X9_file_stats_partition (meta : CodeAnalyzer.metadata)
  (content : string) :
  let s := CodeAnalyzer._get_file_stats meta content in
  (CodeAnalyzer.code_lines s + CodeAnalyzer.comment_lines s
   + CodeAnalyzer.blank_lines s = CodeAnalyzer.total_lines s)%Z
  /\ (0 <= CodeAnalyzer.code_lines s)%Z
  /\ (0 <= CodeAnalyzer.comment_lines s)%Z
  /\ (0 <= CodeAnalyzer.blank_lines s)%Z
  /\ (1 <= CodeAnalyzer.total_lines s)%Z.
Proof.
  unfold CodeAnalyzer._get_file_stats.
  pose proof (classify_invariant (Str.split_nl content) 0 0 0) as H.
  destruct (fold_left _ _ _) as [[c m] b].
  cbn [CodeAnalyzer.code_lines CodeAnalyzer.comment_lines
       CodeAnalyzer.blank_lines CodeAnalyzer.total_lines].
  pose proof (line_count_pos content) as Hl. unfold Balanced.line_count in Hl.
  lia.
Qed.

(** ** Blank texts have only blank lines *)

Lemma rstrip_empty s :
  Str.rstrip s = EmptyString -> Inside.whitespace_only s = true.
Proof.
  induction s as [| c s IH]; simpl; [reflexivity |].
  destruct (Str.rstrip s) eqn:E; [| discriminate].
  destruct (Str.isspace c); [intros _; apply IH; reflexivity | discriminate].
Qed.

Lemma lstrip_whitespace_only s :
  Inside.whitespace_only (Str.lstrip s) = true ->
  Inside.whitespace_only s = true.
Proof.
  induction s as [| c s IH]; simpl; [reflexivity |].
  destruct (Str.isspace c) eqn:E; simpl.
  - exact IH.
  - rewrite E. discriminate.
Qed.

Lemma strip_empty s :
  Str.strip s = EmptyString -> Inside.whitespace_only s = true.
Proof.
  intros H. apply lstrip_whitespace_only, rstrip_empty, H.
Qed.

Lemma split_nl_whitespace s :
  Inside.whitespace_only s = true ->
  Forall (fun l => Inside.whitespace_only l = true) (Str.split_nl s).
Proof.
  induction s as [| c s IH]; simpl; intros H.
  - constructor; [reflexivity | constructor].
  - apply andb_prop in H as [Hc Hs]. specialize (IH Hs).
    destruct (Str.code c =? 10)%nat.
    + constructor; [reflexivity | exact IH].
    + destruct (Str.split_nl s) as [| l ls].
      * constructor; [simpl; rewrite Hc; reflexivity | constructor].
      * inversion IH; subst. constructor; [| assumption].
        simpl. rewrite Hc. assumption.
Qed.

Lemma blank_has_no_nonblank_line content :
  Str.strip content = EmptyString ->
  filter Balanced.nonblank (Str.split_nl content) = [].
Proof.
  intros H. apply strip_empty, split_nl_whitespace in H.
  induction H as [| l ls Hl _ IH]; simpl; [reflexivity |].
  unfold Balanced.nonblank at 1. rewrite (strip_whitespace l Hl). exact IH.
Qed.

Lemma stats_nonblank_lines meta content :
  (CodeAnalyzer.code_lines (CodeAnalyzer._get_file_stats meta content)
   + CodeAnalyzer.comment_lines (CodeAnalyzer._get_file_stats meta content)
   = Inside.nonblank_lines content)%Z.
Proof.
  unfold CodeAnalyzer._get_file_stats, Inside.nonblank_lines.
  pose proof (classify_invariant (Str.split_nl content) 0 0 0) as H.
  destruct (fold_left _ _ _) as [[c m] b].
  cbn [CodeAnalyzer.code_lines CodeAnalyzer.comment_lines]. lia.
Qed.

Lemma balanced_total_lines self content ext :
  exists r, Balanced.analyze_content self content ext = Py.Ok r
            /\ total_analyzed_lines r = Inside.nonblank_lines content.
Proof.
  unfold Balanced.analyze_content.
  destruct (negb (Str.truthy (Str.strip content))) eqn:B.
  { eexists. split; [reflexivity |].
    unfold Inside.nonblank_lines. rewrite blank_has_no_nonblank_line.
    - reflexivity.
    - destruct (Str.strip content); [reflexivity | discriminate]. }
  fold (Inside.nonblank_lines content).
  destruct (Inside.nonblank_lines content =? 0)%Z eqn:Z0.
  { eexists. split; [reflexivity |]. apply Z.eqb_eq in Z0. rewrite Z0.
    reflexivity. }
  destruct (moderate_ok self content) as [mo ->].
  destruct (weak_ok self content) as [we ->].
  destruct (consistency_ok content
              (filter Balanced.nonblank (Str.split_nl content))) as [co ->].
  destruct (human_ok self content) as [hu ->].
  cbn [Py.bind]. eexists. split; reflexivity.
Qed.

Lemma conservative_total_lines content ext :
  exists r, Conservative.analyze_content Conservative.init content ext = Py.Ok r
            /\ total_analyzed_lines r = Inside.nonblank_lines content.
Proof.
  unfold Conservative.analyze_content.
  destruct (negb (Str.truthy (Str.strip content))) eqn:B.
  { eexists. split; [reflexivity |].
    unfold Inside.nonblank_lines. rewrite blank_has_no_nonblank_line.
    - reflexivity.
    - destruct (Str.strip content); [reflexivity | discriminate]. }
  fold (Inside.nonblank_lines content).
  destruct (Inside.nonblank_lines content =? 0)%Z eqn:Z0.
  { eexists. split; [reflexivity |]. apply Z.eqb_eq in Z0. rewrite Z0.
    reflexivity. }
  eexists. split; reflexivity.
Qed.

(** X10. For every text, the number of lines the balanced and the
    conservative detector analyse ([total_analyzed_lines]) is the number of
    code lines plus comment lines [_get_file_stats] counts for the same
    text: the detectors count comment lines, the file statistics keep them
    apart from the code lines. *)
Theorem X10_analysed_lines_are_code_and_comments
  (meta : CodeAnalyzer.metadata) (content file_extension : string) :
  let s := CodeAnalyzer._get_file_stats meta content in
  (exists r,
     Balanced.analyze_content Balanced.init content file_extension = Py.Ok r
     /\ (total_analyzed_lines r
         = CodeAnalyzer.code_lines s + CodeAnalyzer.comment_lines s)%Z)
  /\ (exists r,
        Conservative.analyze_content Conservative.init content file_extension
        = Py.Ok r
        /\ (total_analyzed_lines r
            = CodeAnalyzer.code_lines s + CodeAnalyzer.comment_lines s)%Z).
Proof.
  intros s. unfold s. rewrite stats_nonblank_lines. split.
  - apply balanced_total_lines.
  - apply conservative_total_lines.
Qed.

(** ** One analysed file *)

Lemma balanced_result_facts content ext :
  exists r,
    Balanced.analyze_content Balanced.init content ext = Py.Ok r
    /\ total_analyzed_lines r = Inside.nonblank_lines content
    /\ Inside.in_range r
    /\ confidence_score r <= 0.65.
Proof.
  destruct (balanced_total_lines Balanced.init content ext) as [r [Hr Ht]].
  destruct (balanced_in_range Balanced.init content ext) as [r1 [Hr1 Hrange]].
  destruct (balanced_analyze_record content ext) as [r2 [Hr2 Hrec]].
  rewrite Hr in Hr1, Hr2. injection Hr1 as <-. injection Hr2 as <-.
  exists r. repeat split; try assumption; try apply Hrange.
  destruct Hrec as [-> | [s [m [_ [Hc _]]]]]; [simpl; lra | exact Hc].
Qed.



(** ** The repository summary does not depend on the order of the files *)


Lemma total_permutation field (a b : Metrics.file_results_t) :
  Permutation a b -> Inside.total field a = Inside.total field b.
Proof.
  induction 1 as [| x l l' _ IH | x y l | l l' l'' _ IH1 _ IH2]; simpl;
    lia.
Qed.

Lemma count_if_permutation {A : Type} (p : A -> bool) (a b : list A) :
  Permutation a b -> count_if p a = count_if p b.
Proof.
  unfold count_if.
  induction 1 as [| x l l' _ IH | x y l | l l' l'' _ IH1 _ IH2]; simpl.
  - reflexivity.
  - destruct (p x); simpl; lia.
  - destruct (p x); destruct (p y); reflexivity.
  - lia.
Qed.

(** X12. The integer totals, the two percentages and the high-confidence
    count of [calculate_repository_summary] do not depend on the order in
    which the per-file results were inserted into the dictionary. *)
Theorem X12_summary_order_independent (a b : Metrics.file_results_t) :
  Permutation a b ->
  let sa := Metrics.calculate_repository_summary a in
  let sb := Metrics.calculate_repository_summary b in
  Metrics.total_files sa = Metrics.total_files sb
  /\ Metrics.sum_total_lines sa = Metrics.sum_total_lines sb
  /\ Metrics.total_code_lines sa = Metrics.total_code_lines sb
  /\ Metrics.copilot_lines sa = Metrics.copilot_lines sb
  /\ Metrics.human_lines sa = Metrics.human_lines sb
  /\ Metrics.copilot_percentage sa = Metrics.copilot_percentage sb
  /\ Metrics.human_percentage sa = Metrics.human_percentage sb
  /\ Metrics.high_confidence_files sa = Metrics.high_confidence_files sb
  /\ Metrics.high_confidence_percentage sa
     = Metrics.high_confidence_percentage sb.
Proof.
  intros P sa sb. unfold sa, sb.
  destruct a as [| x a]; destruct b as [| y b].
  - repeat split; reflexivity.
  - apply Permutation_nil in P. discriminate.
  - apply Permutation_sym, Permutation_nil in P. discriminate.
  - cbn [Metrics.calculate_repository_summary Metrics.total_files
         Metrics.sum_total_lines Metrics.total_code_lines Metrics.copilot_lines
         Metrics.human_lines Metrics.copilot_percentage Metrics.human_percentage
         Metrics.high_confidence_files Metrics.high_confidence_percentage].
    rewrite !sum_field_total.
    rewrite !(total_permutation _ _ _ P).
    rewrite (Permutation_length P).
    assert (Hv : Permutation (Metrics.values (x :: a)) (Metrics.values (y :: b)))
      by (apply Permutation_map; exact P).
    rewrite (count_if_permutation _ _ _ Hv).
    repeat split; reflexivity.
Qed.

(** The theorem at the three files of the aggregation scenario and the same
    files in reverse order. *)
Lemma X12_summary_order_witness :
  Metrics.copilot_percentage
    (Metrics.calculate_repository_summary Inside.three_files)
  = Metrics.copilot_percentage
      (Metrics.calculate_repository_summary (rev Inside.three_files)).
Proof.
  apply (X12_summary_order_independent Inside.three_files
           (rev Inside.three_files)).
  apply Permutation_rev.
Defined.

(** ** The summary of an analysed repository *)

Lemma analyze_file_sound meta suffix content f :
  CodeAnalyzer._analyze_file Balanced.init meta suffix content = Some f ->
  CodeAnalyzer.sound_entry f.
Proof.
  unfold CodeAnalyzer._analyze_file.
  destruct (negb (Str.truthy (Str.strip content))); [discriminate |].
  destruct (balanced_result_facts content suffix)
    as [r [-> [Ht [[Hc [He0 He1]] Hc65]]]].
  intros H. injection H as <-. unfold CodeAnalyzer.sound_entry.
  cbn [CodeAnalyzer.fr_stats CodeAnalyzer.estimated_copilot_lines
       CodeAnalyzer.estimated_human_lines CodeAnalyzer.copilot_confidence].
  pose proof (stats_nonblank_lines meta content) as Hs.
  pose proof (classify_invariant (Str.split_nl content) 0 0 0) as Hinv.
  unfold CodeAnalyzer._get_file_stats in *.
  destruct (fold_left _ _ _) as [[c m] b].
  cbn [CodeAnalyzer.code_lines CodeAnalyzer.comment_lines
       CodeAnalyzer.total_lines] in *.
  repeat split; try lia; lra.
Qed.

Lemma collect_sound files :
  Forall (fun kv => CodeAnalyzer.sound_entry (snd kv))
         (CodeAnalyzer.collect Balanced.init files).
Proof.
  induction files as [| f fs IH]; simpl; [constructor |].
  destruct (CodeAnalyzer._analyze_file _ _ _ _) as [fr |] eqn:E;
    [| exact IH].
  constructor; [| exact IH]. simpl. eapply analyze_file_sound. exact E.
Qed.

Lemma collect_length files :
  List.length (CodeAnalyzer.collect Balanced.init files)
  = count_if (fun f => negb (Inside.is_blank (CodeAnalyzer.file_content f)))
             files.
Proof.
  unfold count_if.
  induction files as [| f fs IH]; simpl; [reflexivity |].
  unfold CodeAnalyzer._analyze_file at 1, Inside.is_blank at 1.
  destruct (negb (Str.truthy (Str.strip (CodeAnalyzer.file_content f))));
    cbn [negb]; [exact IH |].
  destruct (balanced_result_facts (CodeAnalyzer.file_content f)
              (CodeAnalyzer.file_suffix f)) as [r [-> _]].
  simpl. rewrite IH. reflexivity.
Qed.

Lemma total_cons field kv (l : Metrics.file_results_t) :
  Inside.total field (kv :: l)
  = (Metrics.get0 field (snd kv) + Inside.total field l)%Z.
Proof. reflexivity. Qed.

Lemma sound_totals entries :
  Forall (fun kv => CodeAnalyzer.sound_entry (snd kv)) entries ->
  let fr := CodeAnalyzer.to_file_results entries in
  (Inside.total Metrics.estimated_copilot_lines fr
   + Inside.total Metrics.estimated_human_lines fr
   = Inside.total Metrics.code_lines fr)%Z
  /\ (0 <= Inside.total Metrics.estimated_copilot_lines fr
      <= Inside.total Metrics.total_lines fr)%Z
  /\ count_if (fun d => Qgtb (Metrics.getq0 Metrics.copilot_confidence d) 0.7)
              (Metrics.values fr) = 0%nat.
Proof.
  induction 1 as [| kv l Hkv _ IH]; [simpl; repeat split; lia |].
  destruct Hkv as [H1 [H2 H3]]. cbv zeta in IH.
  destruct IH as [I1 [I2 I3]]. cbv zeta.
  change (CodeAnalyzer.to_file_results (kv :: l))
    with ((fst kv, CodeAnalyzer.to_file_data (snd kv))
          :: CodeAnalyzer.to_file_results l).
  rewrite !total_cons. cbn [snd].
  unfold Metrics.get0, CodeAnalyzer.to_file_data.
  cbn [Metrics.estimated_copilot_lines Metrics.estimated_human_lines
       Metrics.code_lines Metrics.total_lines].
  split; [lia |]. split; [lia |].
  unfold count_if in *. cbn [Metrics.values map snd filter].
  unfold Metrics.getq0 at 1. cbn [Metrics.copilot_confidence].
  assert (G : Qgtb (CodeAnalyzer.copilot_confidence (snd kv)) 0.7 = false)
    by (apply Qgtb_false; lra).
  rewrite G. exact I3.
Qed.

(** X13. For a repository analysed with the balanced detector, the summary
    counts as files exactly the files that are not blank; its Copilot and
    human lines add up to its code lines; its Copilot lines lie between 0
    and its total lines; and it never reports a high-confidence file,
    because the balanced confidence stays below the 0.7 the count asks
    for. *)
Theorem X13_repository_summary (files : list CodeAnalyzer.source_file) :
  let s := CodeAnalyzer.repository_summary Balanced.init files in
  Metrics.total_files s
  = Z.of_nat (count_if
                (fun f => negb (Inside.is_blank (CodeAnalyzer.file_content f)))
                files)
  /\ (Metrics.copilot_lines s + Metrics.human_lines s
      = Metrics.total_code_lines s)%Z
  /\ (0 <= Metrics.copilot_lines s <= Metrics.sum_total_lines s)%Z
  /\ Metrics.high_confidence_files s = 0%Z
  /\ Metrics.high_confidence_percentage s == 0.
Proof.
  intros s. unfold s, CodeAnalyzer.repository_summary.
  rewrite <- collect_length.
  pose proof (sound_totals _ (collect_sound files)) as H. cbv zeta in H.
  destruct H as [H1 [H2 H3]].
  destruct (CodeAnalyzer.collect Balanced.init files) as [| kv l] eqn:E.
  - simpl. repeat split; try reflexivity; lia.
  - set (fr := CodeAnalyzer.to_file_results (kv :: l)) in *.
    assert (Hfr : fr = (fst kv, CodeAnalyzer.to_file_data (snd kv))
                       :: CodeAnalyzer.to_file_results l) by reflexivity.
    rewrite Hfr. 
    cbn [Metrics.calculate_repository_summary Metrics.total_files
         Metrics.sum_total_lines Metrics.total_code_lines Metrics.copilot_lines
         Metrics.human_lines Metrics.high_confidence_files
         Metrics.high_confidence_percentage].
    rewrite <- Hfr. rewrite !sum_field_total, H3.
    split.
    { unfold fr, CodeAnalyzer.to_file_results. rewrite length_map. reflexivity. }
    split; [lia |]. split; [lia |]. split; [reflexivity |].
    destruct (0 <? _)%Z; reflexivity.
Qed.

(** ** Ranges of the summary *)

Lemma round_between (a b : Z) x :
  inject_Z a <= x <= inject_Z b -> (a <= Py.round x <= b)%Z.
Proof.
  intros [Ha Hb].
  assert (Hfa : (a <= Qfloor x)%Z).
  { rewrite <- (Qfloor_Z a). apply Qfloor_resp_le. exact Ha. }
  assert (Hfb : (Qfloor x <= b)%Z).
  { rewrite <- (Qfloor_Z b). apply Qfloor_resp_le. exact Hb. }
  unfold Py.round.
  destruct (Qcompare (x - inject_Z (Qfloor x)) (1 # 2)) eqn:C.
  - destruct (Z.even (Qfloor x)); [lia |].
    apply Qeq_alt in C.
    assert (inject_Z (Qfloor x) < inject_Z b) by lra.
    rewrite <- Zlt_Qlt in H. lia.
  - lia.
  - apply Qgt_alt in C.
    assert (inject_Z (Qfloor x) < inject_Z b) by lra.
    rewrite <- Zlt_Qlt in H. lia.
Qed.

Lemma round2_percent x : 0 <= x <= 100 -> 0 <= Py.round2 x <= 100.
Proof.
  intros H. unfold Py.round2.
  pose proof (round_between 0 10000 (x * 100)) as R.
  assert (Hx : inject_Z 0 <= x * 100 <= inject_Z 10000).
  { change (inject_Z 0) with 0. change (inject_Z 10000) with 10000. lra. }
  specialize (R Hx). rewrite !Zle_Qle in R.
  change (inject_Z 0) with 0 in R. change (inject_Z 10000) with 10000 in R.
  revert R. generalize (inject_Z (Py.round (x * 100))). intros y R.
  split; [apply Qdiv_nonneg; lra | apply Qle_shift_div_r; lra].
Qed.

Lemma round3_unit x : 0 <= x <= 1 -> 0 <= Py.round3 x <= 1.
Proof.
  intros H. unfold Py.round3.
  pose proof (round_between 0 1000 (x * 1000)) as R.
  assert (Hx : inject_Z 0 <= x * 1000 <= inject_Z 1000).
  { change (inject_Z 0) with 0. change (inject_Z 1000) with 1000. lra. }
  specialize (R Hx). rewrite !Zle_Qle in R.
  change (inject_Z 0) with 0 in R. change (inject_Z 1000) with 1000 in R.
  revert R. generalize (inject_Z (Py.round (x * 1000))). intros y R.
  split; [apply Qdiv_nonneg; lra | apply Qle_shift_div_r; lra].
Qed.

Lemma percentage_range part whole :
  (0 <= part <= whole)%Z -> 0 <= Metrics.percentage part whole <= 100.
Proof.
  intros H. unfold Metrics.percentage.
  destruct (0 <? whole)%Z eqn:E; [| lra].
  apply Z.ltb_lt in E.
  assert (R : 0 <= inject_Z part / inject_Z whole <= 1).
  { apply ratio_in_unit.
    - change 0 with (inject_Z 0). rewrite <- Zle_Qle. lia.
    - rewrite <- Zle_Qle. lia.
    - change 0 with (inject_Z 0). rewrite <- Zlt_Qlt. lia. }
  lra.
Qed.

Lemma fold_left_Qplus_bounds (xs : list Q) :
  (forall x, In x xs -> 0 <= x <= 1) ->
  forall acc,
    acc <= fold_left Qplus xs acc <= acc + Qnat (List.length xs).
Proof.
  induction xs as [| x xs IH]; intros H acc.
  - simpl. change (Qnat 0) with 0. lra.
  - cbn [fold_left List.length]. rewrite Qnat_S.
    pose proof (H x (or_introl eq_refl)).
    specialize (IH (fun y Hy => H y (or_intror Hy)) (acc + x)). lra.
Qed.

(** The summary of a collection that is not empty, written out. *)
Lemma summary_nonempty kv l :
  let fr := kv :: l in
  let files := Z.of_nat (List.length fr) in
  let high :=
    Z.of_nat (count_if
                (fun f => Qgtb (Metrics.getq0 Metrics.copilot_confidence f) 0.7)
                (Metrics.values fr)) in
  let confidences :=
    map (Metrics.getq0 Metrics.copilot_confidence) (Metrics.values fr) in
  Metrics.calculate_repository_summary fr
  = Metrics.Summary files
      (Metrics.sum_field Metrics.total_lines fr)
      (Metrics.sum_field Metrics.code_lines fr)
      (Metrics.sum_field Metrics.estimated_copilot_lines fr)
      (Metrics.sum_field Metrics.estimated_human_lines fr)
      (Py.round2 (Metrics.percentage
                    (Metrics.sum_field Metrics.estimated_copilot_lines fr)
                    (Metrics.sum_field Metrics.code_lines fr)))
      (Py.round2 (Metrics.percentage
                    (Metrics.sum_field Metrics.estimated_human_lines fr)
                    (Metrics.sum_field Metrics.code_lines fr)))
      (Py.round3 (fold_left Qplus confidences 0
                  / Qnat (List.length confidences)))
      high
      (if (0 <? files)%Z
       then Py.round2 (inject_Z high / inject_Z files * 100)
       else 0)
      (Metrics._calculate_distribution_stats
         (map (Metrics.get0 Metrics.code_lines) (Metrics.values fr))).
Proof. reflexivity. Qed.

(** X14. For every collection of per-file results,
    [calculate_repository_summary] counts one file per entry, its
    high-confidence count lies between 0 and that number, and its
    high-confidence percentage lies in [0,100]. When every file confidence
    lies in [0,1] so does the average confidence, and when the Copilot lines
    lie between 0 and the code lines the Copilot percentage lies in
    [0,100]. *)
Theorem X14_summary_ranges (file_results : Metrics.file_results_t) :
  let s := Metrics.calculate_repository_summary file_results in
  Metrics.total_files s = Z.of_nat (List.length file_results)
  /\ (0 <= Metrics.high_confidence_files s <= Metrics.total_files s)%Z
  /\ 0 <= Metrics.high_confidence_percentage s <= 100
  /\ ((forall kv, In kv file_results ->
         0 <= Metrics.getq0 Metrics.copilot_confidence (snd kv) <= 1) ->
      0 <= Metrics.average_confidence s <= 1)
  /\ ((0 <= Metrics.copilot_lines s <= Metrics.total_code_lines s)%Z ->
      0 <= Metrics.copilot_percentage s <= 100).
Proof.
  destruct file_results as [| kv l].
  { simpl. repeat split; intros; try lia; lra. }
  cbv zeta. rewrite summary_nonempty. cbv zeta.
  set (fr := kv :: l).
  cbn [Metrics.total_files Metrics.high_confidence_files
       Metrics.high_confidence_percentage Metrics.average_confidence
       Metrics.copilot_lines Metrics.total_code_lines
       Metrics.copilot_percentage].
  assert (Hh : (0 <= Z.of_nat
                  (count_if
                     (fun f => Qgtb (Metrics.getq0 Metrics.copilot_confidence f) 0.7)
                     (Metrics.values fr))
                <= Z.of_nat (List.length fr))%Z).
  { pose proof (count_if_le
      (fun f => Qgtb (Metrics.getq0 Metrics.copilot_confidence f) 0.7)
      (Metrics.values fr)) as H.
    unfold Metrics.values in H at 2. rewrite length_map in H. lia. }
  split; [reflexivity |]. split; [exact Hh |]. split; [| split].
  - pose proof (percentage_range _ _ Hh) as P. unfold Metrics.percentage in P.
    destruct (0 <? Z.of_nat (List.length fr))%Z; [| lra].
    apply round2_percent. exact P.
  - intros Hc. apply round3_unit.
    set (cs := map (Metrics.getq0 Metrics.copilot_confidence)
                   (Metrics.values fr)).
    assert (Hin : forall x, In x cs -> 0 <= x <= 1).
    { intros x Hx. apply in_map_iff in Hx as [d [<- Hd]].
      unfold Metrics.values in Hd. apply in_map_iff in Hd as [kv' [<- Hk]].
      apply Hc. exact Hk. }
    pose proof (fold_left_Qplus_bounds cs Hin 0) as B.
    apply ratio_in_unit; try lra.
    apply Qnat_pos. unfold cs, fr. simpl. lia.
  - intros Hl. apply round2_percent, percentage_range. exact Hl.
Qed.

(** The theorem at the three files of the aggregation scenario. *)
Lemma X14_summary_ranges_witness :
  0 <= Metrics.average_confidence
         (Metrics.calculate_repository_summary Inside.three_files) <= 1
  /\ 0 <= Metrics.copilot_percentage
            (Metrics.calculate_repository_summary Inside.three_files) <= 100.
Proof.
  destruct (X14_summary_ranges Inside.three_files) as [_ [_ [_ [Ha Hp]]]].
  split.
  - apply Ha. intros kv Hk.
    repeat (destruct Hk as [<- | Hk]; [vm_compute; split; discriminate |]).
    destruct Hk.
  - apply Hp. vm_compute. split; discriminate.
Defined.

(** ** Distribution statistics *)

Lemma insert_sorted_In x y l :
  In y (Metrics.insert_sorted x l) <-> y = x \/ In y l.
Proof.
  induction l as [| a l IH]; simpl; [intuition |].
  destruct (x <=? a)%Z; simpl; [intuition |].
  rewrite IH. intuition.
Qed.

Lemma sorted_In y l : In y (Metrics.sorted l) <-> In y l.
Proof.
  induction l as [| a l IH]; simpl; [reflexivity |].
  rewrite insert_sorted_In, IH. intuition.
Qed.

Lemma insert_sorted_length x l :
  List.length (Metrics.insert_sorted x l) = S (List.length l).
Proof.
  induction l as [| a l IH]; simpl; [reflexivity |].
  destruct (x <=? a)%Z; simpl; [reflexivity | rewrite IH; reflexivity].
Qed.

Lemma sorted_length l : List.length (Metrics.sorted l) = List.length l.
Proof.
  induction l as [| a l IH]; simpl; [reflexivity |].
  rewrite insert_sorted_length, IH. reflexivity.
Qed.

Lemma insert_sorted_strongly x l :
  StronglySorted Z.le l -> StronglySorted Z.le (Metrics.insert_sorted x l).
Proof.
  induction 1 as [| a l Hs IH Ha]; simpl.
  - constructor; constructor.
  - destruct (x <=? a)%Z eqn:E.
    + apply Z.leb_le in E. constructor.
      * constructor; assumption.
      * constructor; [exact E |].
        rewrite Forall_forall in *. intros y Hy. specialize (Ha y Hy). lia.
    + apply Z.leb_gt in E. constructor; [exact IH |].
      rewrite Forall_forall in *. intros y Hy.
      apply insert_sorted_In in Hy as [-> | Hy]; [lia | apply Ha, Hy].
Qed.

Lemma sorted_strongly l : StronglySorted Z.le (Metrics.sorted l).
Proof.
  induction l as [| a l IH]; simpl; [constructor |].
  apply insert_sorted_strongly, IH.
Qed.

Lemma nth_sorted_le l :
  StronglySorted Z.le l ->
  forall i j, (i <= j < List.length l)%nat ->
              (nth i l 0 <= nth j l 0)%Z.
Proof.
  induction 1 as [| a l Hs IH Ha]; intros i j Hij; simpl in Hij; [lia |].
  destruct i as [| i]; destruct j as [| j]; simpl; try lia.
  - rewrite Forall_forall in Ha. apply Ha, nth_In. lia.
  - apply IH. lia.
Qed.

Lemma sum_between (lo hi : Z) l :
  (forall x, In x l -> lo <= x <= hi)%Z ->
  (lo * Z.of_nat (List.length l) <= fold_right Z.add 0 l
   <= hi * Z.of_nat (List.length l))%Z.
Proof.
  induction l as [| a l IH]; intros H; [simpl; lia |].
  cbn [fold_right List.length].
  pose proof (H a (or_introl eq_refl)).
  specialize (IH (fun x Hx => H x (or_intror Hx))). lia.
Qed.

(** X15. For a list of values that is not empty,
    [_calculate_distribution_stats] returns as [min] and [max] the least and
    the greatest of the values, and its [median] and [mean] lie between
    them. *)
Theorem X15_distribution_stats (values : list Z) :
  values <> [] ->
  let st := Metrics._calculate_distribution_stats values in
  (forall v, In v values ->
     Metrics.s_min st <= inject_Z v <= Metrics.s_max st)
  /\ (exists v, In v values /\ Metrics.s_min st = inject_Z v)
  /\ (exists v, In v values /\ Metrics.s_max st = inject_Z v)
  /\ Metrics.s_min st <= Metrics.s_median st <= Metrics.s_max st
  /\ Metrics.s_min st <= Metrics.s_mean st <= Metrics.s_max st.
Proof.
  intros Hne. destruct values as [| a l]; [congruence |].
  unfold Metrics._calculate_distribution_stats. cbv beta iota zeta.
  set (sv := Metrics.sorted (a :: l)).
  set (n := List.length sv).
  cbn [Metrics.s_min Metrics.s_max Metrics.s_median Metrics.s_mean].
  pose proof (sorted_strongly (a :: l)) as Hs. fold sv in Hs.
  assert (Hn : (0 < n)%nat)
    by (unfold n, sv; rewrite sorted_length; simpl; lia).
  assert (Hle : forall i j, (i <= j < n)%nat ->
                            inject_Z (nth i sv 0%Z) <= inject_Z (nth j sv 0%Z)).
  { intros i j Hij. rewrite <- Zle_Qle. apply nth_sorted_le; assumption. }
  assert (Hin : forall i, (i < n)%nat -> In (nth i sv 0%Z) (a :: l)).
  { intros i Hi. apply (sorted_In _ (a :: l)). apply nth_In. exact Hi. }
  assert (Hall : forall v, In v (a :: l) ->
                           inject_Z (nth 0 sv 0%Z) <= inject_Z v
                           <= inject_Z (nth (n - 1) sv 0%Z)).
  { intros v Hv. apply (sorted_In v (a :: l)) in Hv. fold sv in Hv.
    destruct (In_nth sv v 0%Z Hv) as [k [Hk <-]]. fold n in Hk.
    split; apply Hle; lia. }
  split; [exact Hall |].
  split; [exists (nth 0 sv 0%Z); split; [apply Hin; lia | reflexivity] |].
  split; [exists (nth (n - 1) sv 0%Z);
          split; [apply Hin; lia | reflexivity] |].
  split.
  - destruct (n mod 2 =? 1)%nat eqn:Odd.
    + assert (n / 2 < n)%nat by (apply Nat.div_lt; lia).
      split; apply Hle; lia.
    + assert (Hev : (n mod 2 = 0)%nat).
      { apply Nat.eqb_neq in Odd.
        pose proof (Nat.mod_upper_bound n 2 ltac:(lia)). lia. }
      assert (2 <= n)%nat.
      { destruct n as [| [| n']]; [lia | simpl in Hev; lia | lia]. }
      assert (n / 2 < n)%nat by (apply Nat.div_lt; lia).
      assert (1 <= n / 2)%nat
        by (apply Nat.div_le_lower_bound; lia).
      pose proof (Hle 0%nat (n / 2 - 1)%nat ltac:(lia)).
      pose proof (Hle 0%nat (n / 2)%nat ltac:(lia)).
      pose proof (Hle (n / 2 - 1)%nat (n - 1)%nat ltac:(lia)).
      pose proof (Hle (n / 2)%nat (n - 1)%nat ltac:(lia)).
      split; [apply Qle_shift_div_l | apply Qle_shift_div_r]; lra.
  - rewrite fold_left_add. rewrite Z.add_0_l.
    pose proof (sum_between (nth 0 sv 0%Z) (nth (n - 1) sv 0%Z) sv) as B.
    assert (Hb : forall x, In x sv ->
                           (nth 0 sv 0 <= x <= nth (n - 1) sv 0)%Z).
    { intros x Hx. rewrite !Zle_Qle. apply Hall.
      apply (sorted_In x (a :: l)). exact Hx. }
    specialize (B Hb). fold n in B.
    rewrite !Zle_Qle, !inject_Z_mult in B. fold (Qnat n) in B.
    pose proof (Qnat_pos n Hn).
    split; [apply Qle_shift_div_l | apply Qle_shift_div_r]; lra.
Qed.

(** The theorem at the code-line counts 30, 10, 20. *)
Lemma X15_distribution_stats_witness :
  let st := Metrics._calculate_distribution_stats [30; 10; 20]%Z in
  Metrics.s_min st <= Metrics.s_median st <= Metrics.s_max st
  /\ Metrics.s_min st == 10 /\ Metrics.s_max st == 30.
Proof.
  destruct (X15_distribution_stats [30; 10; 20]%Z ltac:(discriminate))
    as [_ [_ [_ [H _]]]].
  split; [exact H |]. split; reflexivity.
Defined.
